(** * COVID19-ES-Py: field normalisation and aggregation of the case line-list

    A shallow embedding of [COVID19_ES_Py/relatorio.py] (the package's main
    module) and of [COVID19_ES_Py/parse_relatorio_powerbi.py] (its older
    script form), followed by the properties of the normaliser, of the
    aggregation pass, of the date filters and of the municipality lookup.

    Python text is a [string] holding its UTF-8 bytes: equality and the
    substring test of two texts agree with those of their encodings. *)

From Stdlib Require Import ZArith Lia Ascii.
From stdpp Require Import gmap strings list fin_maps.

(** ** Python values, exceptions and results *)

(** The cells of a csv row as the [rows] library delivers them (text, integer,
    boolean, empty) and what normalisation stores back (an [arrow] instant). *)
Inductive valor : Type :=
| VStr (s : string)
| VInt (n : Z)
| VBool (b : bool)
| VNone
| VArrow (t : Z).

#[global] Instance valor_eq_dec : EqDecision valor.
Proof. solve_decision. Defined.

Inductive exn : Type :=
| ParserError
| TypeError
| IndexError
| AttributeError
| KeyError (chave : valor)
| RelatorioError (mensagem : string).

#[global] Instance exn_eq_dec : EqDecision exn.
Proof. solve_decision. Defined.

(** A computation either returns or raises. *)
Inductive res (A : Type) : Type :=
| Ok (a : A)
| Raise (e : exn).
Arguments Ok {A} a.
Arguments Raise {A} e.

(** Sequencing: the first exception raised ends the computation. *)
Definition tenta {A B} (m : res A) (k : A → res B) : res B :=
  match m with
  | Ok a => k a
  | Raise e => Raise e
  end.

Notation "x <~ m ;; k" := (tenta m (λ x, k))
  (at level 100, m at next level, right associativity).

Definition levantou {A} (m : res A) : bool :=
  match m with Ok _ => false | Raise _ => true end.

(** Python's [==] on cells: [True == 1] and [False == 0]; values of unrelated
    types are different. *)
Definition py_eq (a b : valor) : bool :=
  match a, b with
  | VStr s, VStr t => bool_decide (s = t)
  | VInt n, VInt m => bool_decide (n = m)
  | VInt n, VBool b => bool_decide (n = if b then 1%Z else 0%Z)
  | VBool b, VInt n => bool_decide (n = if b then 1%Z else 0%Z)
  | VBool b, VBool c => bool_decide (b = c)
  | VNone, VNone => true
  | VArrow s, VArrow t => bool_decide (s = t)
  | _, _ => false
  end.

(** [x in [a, b, ...]] *)
Definition valor_in_lista (x : valor) (l : list valor) : bool :=
  existsb (py_eq x) l.

(** [d.get(k, padrao)] on a dict literal. *)
Fixpoint dict_get (d : list (valor * valor)) (k padrao : valor) : valor :=
  match d with
  | [] => padrao
  | (k', v) :: d' => if py_eq k' k then v else dict_get d' k padrao
  end.

(** [l[i]] *)
Definition getitem (l : list valor) (i : nat) : res valor :=
  match l !! i with
  | Some v => Ok v
  | None => Raise IndexError
  end.

(** ** Text *)

Fixpoint comeca_com (sub s : string) : bool :=
  match sub, s with
  | EmptyString, _ => true
  | String a sub', String b s' => bool_decide (a = b) && comeca_com sub' s'
  | String _ _, EmptyString => false
  end.

(** [sub in s] on two texts. *)
Fixpoint str_contem (sub s : string) : bool :=
  comeca_com sub s ||
  match s with
  | EmptyString => false
  | String _ s' => str_contem sub s'
  end.

(** [sub in v]: only text can be searched; any other cell is not iterable. *)
Definition contem (sub : string) (v : valor) : res bool :=
  match v with
  | VStr s => Ok (str_contem sub s)
  | _ => Raise TypeError
  end.

(** ** Sample collaborators

    [utils.py] (the registry [MUNICIPIOS] and [remove_caracteres_especiais])
    and the [arrow] parser are collaborators of the two modules. The
    development is parametric in them; the instances below only serve to run
    the definitions on concrete rows and are not embeddings of the
    collaborators: [remove_amostra] keeps ASCII letters, digits and spaces and
    drops every other byte (an accented letter is dropped, not unaccented),
    and [arrow_get_amostra] reads a date and nothing after it, checking only
    that the day is within 1..31 and the month within 1..12. The sample rows
    stay within the inputs on which they agree with the collaborators. *)

Definition MUNICIPIOS_amostra : list string :=
  ["VITORIA"; "VILA VELHA"; "SERRA"]%string.

Definition maiuscula_ascii (c : ascii) : ascii :=
  let n := nat_of_ascii c in
  if (97 <=? n)%nat && (n <=? 122)%nat then ascii_of_nat (n - 32) else c.

Fixpoint upper_amostra (s : string) : string :=
  match s with
  | EmptyString => EmptyString
  | String c s' => String (maiuscula_ascii c) (upper_amostra s')
  end.

Definition letra_digito_espaco (c : ascii) : bool :=
  let n := nat_of_ascii c in
  ((65 <=? n)%nat && (n <=? 90)%nat) || ((97 <=? n)%nat && (n <=? 122)%nat)
  || ((48 <=? n)%nat && (n <=? 57)%nat) || (n =? 32)%nat.

Fixpoint remove_amostra (s : string) : string :=
  match s with
  | EmptyString => EmptyString
  | String c s' =>
      if letra_digito_espaco c then String c (remove_amostra s')
      else remove_amostra s'
  end.

Fixpoint tira_espacos_esq (s : string) : string :=
  match s with
  | String c s' => if (nat_of_ascii c =? 32)%nat then tira_espacos_esq s' else s
  | EmptyString => EmptyString
  end.

Definition strip_amostra (s : string) : string :=
  String.rev (tira_espacos_esq (String.rev (tira_espacos_esq s))).

Definition digito (c : ascii) : option Z :=
  let n := nat_of_ascii c in
  if (48 <=? n)%nat && (n <=? 57)%nat then Some (Z.of_nat (n - 48)) else None.

(** Reads a text against one format: [D], [M] and [Y] stand for one digit of
    the day, month and year, any other character for itself. The result is
    (day, month, year) accumulated digit by digit. *)
Fixpoint le_formato (fmt s : string) (dma : Z * Z * Z) : option (Z * Z * Z) :=
  match fmt, s with
  | EmptyString, EmptyString => Some dma
  | String f fmt', String c s' =>
      let '(d, m, a) := dma in
      if bool_decide (f = "D"%char) then
        x ← digito c; le_formato fmt' s' (10 * d + x, m, a)%Z
      else if bool_decide (f = "M"%char) then
        x ← digito c; le_formato fmt' s' (d, 10 * m + x, a)%Z
      else if bool_decide (f = "Y"%char) then
        x ← digito c; le_formato fmt' s' (d, m, 10 * a + x)%Z
      else if bool_decide (f = c) then le_formato fmt' s' dma
      else None
  | _, _ => None
  end.

(** The instant is written yyyymmdd, which orders as the calendar does. *)
Fixpoint arrow_get_amostra (fmts : list string) (s : string) : option Z :=
  match fmts with
  | [] => None
  | fmt :: fmts' =>
      match le_formato fmt s (0, 0, 0)%Z with
      | Some (d, m, a) =>
          if bool_decide (1 ≤ d ≤ 31 ∧ 1 ≤ m ≤ 12)%Z
          then Some (a * 10000 + m * 100 + d)%Z
          else arrow_get_amostra fmts' s
      | None => arrow_get_amostra fmts' s
      end
  end.

(** A 27-column row with the given date, classification, outcome and
    municipality; the other cells hold plain sample text. *)
Definition linha_amostra (dia classe evol mun : string) : list valor :=
  [VStr dia; VStr classe; VStr evol; VStr "Laboratorial"; VStr "Encerrado";
   VStr mun; VStr "CENTRO"; VStr "30 a 39 anos"; VStr "F"; VStr "Parda";
   VStr "Ensino medio completo"]%string
  ++ replicate 16 (VStr "Sim"%string).

(** Four sample rows: a death in Serra, a case from outside the registry, a
    suspected case in Vitoria and a later case in Serra. *)
Definition linhas_amostra : list (list valor) :=
  [linha_amostra "09/03/2020" "Confirmados" "Óbito pelo COVID-19" "SERRA";
   linha_amostra "10/03/2020" "Confirmados" "-" "SAO PAULO";
   linha_amostra "11/03/2020" "Suspeito" "-" "VITORIA";
   linha_amostra "12/03/2020" "Confirmados" "Cura" "SERRA"].

(** ** Data model *)

(** [class Caso]: one attribute per column; [sintomas] and [comorbidades] are
    dicts keyed by name, or [None] when the record is built without a row.
    The older module calls the fourth attribute [criterioClassificacao]. *)
Record Caso : Type := mkCaso {
  data : valor;
  classificacao : valor;
  evolucao : valor;
  criterioConfirmacao : valor;
  statusNotificacao : valor;
  municipio : valor;
  bairro : valor;
  faixaEtaria : valor;
  sexo : valor;
  racaCor : valor;
  escolaridade : valor;
  sintomas : option (list (string * valor));
  comorbidades : option (list (string * valor));
  ficouInternado : valor;
  viagemBrasil : valor;
  viagemInternacional : valor
}.

(** A record as [Caso(linha)] leaves it, with the given outcome and
    municipality, for running the tally on its own. *)
Definition caso_amostra (evol mun : string) : Caso :=
  mkCaso (VArrow 20200310) (VStr "Confirmados") (VStr evol)
         (VStr "Laboratorial") (VStr "Encerrado") (VStr mun) (VStr "CENTRO")
         (VStr "30 a 39 anos") (VStr "F") (VStr "Parda")
         (VStr "Ensino medio completo") (Some []) (Some [])
         (VBool false) (VBool false) (VBool false).

(** [class Municipio] *)
Record Municipio : Type := mkMunicipio {
  nome : string;
  casos : list Caso;
  casosConfirmados : Z;
  obitos : Z
}.

(** [Municipio(nome)] *)
Definition Municipio_init (nome : string) : Municipio :=
  {| nome := nome; casos := []; casosConfirmados := 0; obitos := 0 |}.

(** The two-key dicts [{'casosConfirmados': _, 'obitos': _}]. *)
Record Contagem : Type := mkContagem {
  contagem_casosConfirmados : Z;
  contagem_obitos : Z
}.

(** [class Relatorio]. [linhasRelatorio] is [None] until rows are loaded (the
    older module names the attribute [rows]). *)
Record Relatorio : Type := mkRelatorio {
  csv : string;
  linhasRelatorio : option (list (list valor));
  casosMunicipios : gmap string Municipio;
  importadosOuIndefinidos : Contagem;
  totalGeral : Contagem;
  nMunicipiosInfectados : Z
}.

(** [class LeitorRelatorio]; its own [linhasRelatorio] is unset ([None]) until
    a csv is loaded. *)
Record LeitorRelatorio : Type := mkLeitor {
  relatorio : Relatorio;
  leitor_csv : string;
  leitor_linhasRelatorio : option (list (list valor))
}.

(** Attribute and item assignments. *)
Definition com_csv (origem : string) (r : Relatorio) : Relatorio :=
  mkRelatorio origem (linhasRelatorio r) (casosMunicipios r)
    (importadosOuIndefinidos r) (totalGeral r) (nMunicipiosInfectados r).
Definition com_linhas (ls : option (list (list valor))) (r : Relatorio) : Relatorio :=
  mkRelatorio (csv r) ls (casosMunicipios r) (importadosOuIndefinidos r)
    (totalGeral r) (nMunicipiosInfectados r).
Definition com_municipios (d : gmap string Municipio) (r : Relatorio) : Relatorio :=
  mkRelatorio (csv r) (linhasRelatorio r) d (importadosOuIndefinidos r)
    (totalGeral r) (nMunicipiosInfectados r).
Definition com_importados (c : Contagem) (r : Relatorio) : Relatorio :=
  mkRelatorio (csv r) (linhasRelatorio r) (casosMunicipios r) c
    (totalGeral r) (nMunicipiosInfectados r).
Definition com_total (c : Contagem) (r : Relatorio) : Relatorio :=
  mkRelatorio (csv r) (linhasRelatorio r) (casosMunicipios r)
    (importadosOuIndefinidos r) c (nMunicipiosInfectados r).
Definition com_nMunicipios (n : Z) (r : Relatorio) : Relatorio :=
  mkRelatorio (csv r) (linhasRelatorio r) (casosMunicipios r)
    (importadosOuIndefinidos r) (totalGeral r) n.

Definition mais_um_confirmado (c : Contagem) : Contagem :=
  mkContagem (contagem_casosConfirmados c + 1) (contagem_obitos c).
Definition mais_um_obito (c : Contagem) : Contagem :=
  mkContagem (contagem_casosConfirmados c) (contagem_obitos c + 1).

Definition municipio_mais_um_obito (m : Municipio) : Municipio :=
  mkMunicipio (nome m) (casos m) (casosConfirmados m) (obitos m + 1).
Definition municipio_anexa_caso (c : Caso) (m : Municipio) : Municipio :=
  mkMunicipio (nome m) (casos m ++ [c]) (casosConfirmados m) (obitos m).
Definition municipio_mais_um_confirmado (m : Municipio) : Municipio :=
  mkMunicipio (nome m) (casos m) (casosConfirmados m + 1) (obitos m).

(** [sum(g(m) for m in d.values())], and the sums of the two counters. *)
Definition soma_por (g : Municipio → Z) (d : gmap string Municipio) : Z :=
  map_fold (λ _ m acc, g m + acc)%Z 0%Z d.
Definition soma_confirmados (d : gmap string Municipio) : Z :=
  soma_por casosConfirmados d.
Definition soma_obitos (d : gmap string Municipio) : Z :=
  soma_por obitos d.

(** The literals of the two modules. *)
Definition CONFIRMADOS : string := "Confirmados".
Definition URL_RELATORIO_CSV : string :=
  "https://bi.static.es.gov.br/covid19/MICRODADOS.csv".
Definition OBITO_COVID : string := "Óbito pelo COVID-19".
Definition FORMATO_DIA : list string := ["DD/MM/YYYY"]%string.
Definition FORMATOS_FILTRO : list string :=
  ["DD/MM/YYYY"; "DD-MM-YYYY"; "DD_MM_YYYY"; "DD.MM.YYYY"; "DDMMYYYY"]%string.

Definition stringParaBool : list (valor * valor) :=
  [(VStr "Sim", VBool true); (VStr "Não", VBool false); (VStr "-", VNone);
   (VStr EmptyString, VNone); (VInt 1, VBool true); (VInt 2, VNone)]%string.

Section Pipeline.

(** The collaborators: the registry and the text cleaner of [utils.py],
    Python's [str.upper] and [str.strip], and [arrow.get(text, formats)],
    which yields the instant read or nothing when no format matches. *)
Variable MUNICIPIOS : list string.
Variable remove_caracteres_especiais : string → string.
Variable str_upper : string → string.
Variable str_strip : string → string.
Variable arrow_get : list string → string → option Z.

(** ** Field normaliser ([parse_relatorio_powerbi.py], lines 13-40) *)

(** [arrow.get(v, formats)]: only text is parsed. *)
Definition arrow_get_valor (formatos : list string) (v : valor) : res Z :=
  match v with
  | VStr s =>
      match arrow_get formatos s with
      | Some t => Ok t
      | None => Raise ParserError
      end
  | _ => Raise TypeError
  end.

(** [if sub in linha[i]: linha[i] = None] *)
Definition anula_se_contem (sub : string) (i : nat) (linha : list valor)
  : res (list valor) :=
  c <~ getitem linha i;;
  b <~ contem sub c;;
  Ok (if b then <[i := VNone]> linha else linha).

(** [if linha[i] in sentinelas: linha[i] = None] *)
Definition anula_se_igual (sentinelas : list valor) (i : nat) (linha : list valor)
  : res (list valor) :=
  c <~ getitem linha i;;
  Ok (if valor_in_lista c sentinelas then <[i := VNone]> linha else linha).

(** The loop [for i, campo in enumerate(linha[12:])], whose body rewrites
    [linha[i + 12]] (always in range) through [stringParaBool.get]. *)
Definition converte_booleanos (linha : list valor) : list valor :=
  foldl (λ l i, alter (λ v, dict_get stringParaBool v VNone) (i + 12) l)
        linha (seq 0 (length (drop 12 linha))).

Definition trata_dados_linha (linha : list valor) : res (list valor) :=
  c0 <~ getitem linha 0;;
  t <~ arrow_get_valor FORMATO_DIA c0;;
  let linha := <[0 := VArrow t]> linha in
  linha <~ anula_se_igual [VStr "Ignorado"; VStr "-"]%string 2 linha;;
  linha <~ anula_se_contem "-" 3 linha;;
  linha <~ anula_se_igual [VStr "Não encontrado"; VStr "NULL"]%string 6 linha;;
  linha <~ anula_se_contem "Ignorado" 9 linha;;
  linha <~ anula_se_contem "Ignorado" 10 linha;;
  linha <~ anula_se_contem "-" 11 linha;;
  Ok (converte_booleanos linha).

(** ** Case records *)

(** The [else] branch of [Caso.__init__] with every keyword left at [None]. *)
Definition Caso_vazio : Caso :=
  mkCaso VNone VNone VNone VNone VNone VNone VNone VNone VNone VNone VNone
         None None VNone VNone VNone.

(** [Caso.carrega_dados_linha] of [relatorio.py]. That module imports
    [trata_dados_linha] from [utils.py]; the definition of that name in
    [parse_relatorio_powerbi.py] is the one taken here. *)
Definition carrega_dados_linha (linha : list valor) : res Caso :=
  linha <~ trata_dados_linha linha;;
  l0 <~ getitem linha 0;; l1 <~ getitem linha 1;; l2 <~ getitem linha 2;;
  l3 <~ getitem linha 3;; l4 <~ getitem linha 4;; l5 <~ getitem linha 5;;
  l6 <~ getitem linha 6;; l7 <~ getitem linha 7;; l8 <~ getitem linha 8;;
  l9 <~ getitem linha 9;; l10 <~ getitem linha 10;;
  l11 <~ getitem linha 11;; l12 <~ getitem linha 12;; l13 <~ getitem linha 13;;
  l14 <~ getitem linha 14;; l15 <~ getitem linha 15;; l16 <~ getitem linha 16;;
  l17 <~ getitem linha 17;;
  l18 <~ getitem linha 18;; l19 <~ getitem linha 19;; l20 <~ getitem linha 20;;
  l21 <~ getitem linha 21;; l22 <~ getitem linha 22;; l23 <~ getitem linha 23;;
  l24 <~ getitem linha 24;; l25 <~ getitem linha 25;; l26 <~ getitem linha 26;;
  Ok (mkCaso l0 l1 l2 l3 l4 l5 l6 l7 l8 l9 l10
        (Some [("febre", l11); ("dificuldadeRespiratoria", l12); ("tosse", l13);
               ("coriza", l14); ("dorGarganta", l15); ("diarreia", l16);
               ("cefaleia", l17)]%string)
        (Some [("comorbidadePulmao", l18); ("comorbidadeCardio", l19);
               ("comorbidadeRenal", l20); ("comorbidadeDiabetes", l21);
               ("comorbidadeTabagismo", l22); ("comorbidadeObesidade", l23)]%string)
        l24 l25 l26).

(** [Caso.carrega_dados_linha] of [parse_relatorio_powerbi.py]: the same
    columns under another naming of the symptoms and comorbidities. *)
Definition powerbi_carrega_dados_linha (linha : list valor) : res Caso :=
  linha <~ trata_dados_linha linha;;
  l0 <~ getitem linha 0;; l1 <~ getitem linha 1;; l2 <~ getitem linha 2;;
  l3 <~ getitem linha 3;; l4 <~ getitem linha 4;; l5 <~ getitem linha 5;;
  l6 <~ getitem linha 6;; l7 <~ getitem linha 7;; l8 <~ getitem linha 8;;
  l9 <~ getitem linha 9;; l10 <~ getitem linha 10;;
  l11 <~ getitem linha 11;; l12 <~ getitem linha 12;; l13 <~ getitem linha 13;;
  l14 <~ getitem linha 14;; l15 <~ getitem linha 15;; l16 <~ getitem linha 16;;
  l17 <~ getitem linha 17;;
  l18 <~ getitem linha 18;; l19 <~ getitem linha 19;; l20 <~ getitem linha 20;;
  l21 <~ getitem linha 21;; l22 <~ getitem linha 22;; l23 <~ getitem linha 23;;
  l24 <~ getitem linha 24;; l25 <~ getitem linha 25;; l26 <~ getitem linha 26;;
  Ok (mkCaso l0 l1 l2 l3 l4 l5 l6 l7 l8 l9 l10
        (Some [("cefaleia", l11); ("coriza", l12); ("diarreia", l13);
               ("dificuldadeRespiratoria", l14); ("dorGarganta", l15);
               ("febre", l16); ("tosse", l17)]%string)
        (Some [("comorbidadeCardio", l18); ("comorbidadeDiabetes", l19);
               ("comorbidadePulmao", l20); ("comorbidadeRenal", l21);
               ("comorbidadeTabagismo", l22); ("comorbidadeObesidade", l23)]%string)
        l24 l25 l26).

(** [Caso(dados)]: an empty row is falsy and takes the keyword branch. *)
Definition Caso_init (dados : list valor) : res Caso :=
  match dados with
  | [] => Ok Caso_vazio
  | _ :: _ => carrega_dados_linha dados
  end.

Definition powerbi_Caso_init (dados : list valor) : res Caso :=
  match dados with
  | [] => Ok Caso_vazio
  | _ :: _ => powerbi_carrega_dados_linha dados
  end.

(** ** The report ([relatorio.py], [class Relatorio]) *)

(** [Relatorio.inicializa_dicionario_municipios]: one fresh bucket per
    registry entry, stored over whatever the dict held under that name. *)
Definition inicializa_dicionario_municipios (r : Relatorio) : Relatorio :=
  com_municipios
    (foldl (λ d municipio, <[municipio := Municipio_init municipio]> d)
           (casosMunicipios r) MUNICIPIOS)
    r.

(** [Relatorio()] before any row is loaded; [origem] is the csv path or URL. *)
Definition Relatorio_init (origem : string) : Relatorio :=
  inicializa_dicionario_municipios
    (mkRelatorio origem None ∅ (mkContagem 0 0) (mkContagem 0 0) 0).

Definition MENSAGEM_NAO_ENCONTRADO (municipio : string) : string :=
  "O município '" +:+ municipio +:+
  "' não foi encontrado no relatório. Pode ter ocorrido um erro de digitação ou o município não registrou casos de COVID-19.".

(** [Relatorio.busca_casos_municipio] *)
Definition busca_casos_municipio (r : Relatorio) (municipio : string)
  : res Municipio :=
  let stringMunicipioTratada :=
    str_strip (str_upper (remove_caracteres_especiais municipio)) in
  match casosMunicipios r !! stringMunicipioTratada with
  | Some m => Ok m
  | None => Raise (RelatorioError (MENSAGEM_NAO_ENCONTRADO municipio))
  end.

Definition obito_pelo_covid (caso : Caso) : bool :=
  py_eq (evolucao caso) (VStr OBITO_COVID).

(** The tally of one case: lines 282-296 of [relatorio.py], which are lines
    171-185 of [parse_relatorio_powerbi.py]. Every exception is raised before
    the first assignment, so a raising tally leaves the report as it was. *)
Definition tabula_caso (r : Relatorio) (caso : Caso) : res Relatorio :=
  match municipio caso with
  | VStr nomeCaso =>
      r <~ (if bool_decide
                 (remove_caracteres_especiais (str_upper nomeCaso) ∈ MUNICIPIOS)
            then
              match casosMunicipios r !! nomeCaso with
              | None => Raise (KeyError (VStr nomeCaso))
              | Some m =>
                  let r :=
                    if bool_decide (casosConfirmados m = 0%Z)
                    then com_nMunicipios (nMunicipiosInfectados r + 1) r
                    else r in
                  let r :=
                    if obito_pelo_covid caso
                    then com_municipios
                           (alter municipio_mais_um_obito nomeCaso
                                  (casosMunicipios r))
                           (com_total (mais_um_obito (totalGeral r)) r)
                    else r in
                  let r :=
                    com_municipios
                      (alter (municipio_anexa_caso caso) nomeCaso
                             (casosMunicipios r)) r in
                  Ok (com_municipios
                        (alter municipio_mais_um_confirmado nomeCaso
                               (casosMunicipios r)) r)
              end
            else
              let r :=
                com_importados
                  (mais_um_confirmado (importadosOuIndefinidos r)) r in
              Ok (if obito_pelo_covid caso
                  then com_importados
                         (mais_um_obito (importadosOuIndefinidos r))
                         (com_total (mais_um_obito (totalGeral r)) r)
                  else r));;
      Ok (com_total (mais_um_confirmado (totalGeral r)) r)
  | _ => Raise AttributeError
  end.

(** One turn of the loop of [Relatorio.popula_relatorio] in [relatorio.py]. *)
Definition conta_linha (r : Relatorio) (linha : list valor) : res Relatorio :=
  caso <~ Caso_init linha;;
  tabula_caso r caso.

(** One turn of the loop in [parse_relatorio_powerbi.py]. *)
Definition powerbi_conta_linha (r : Relatorio) (linha : list valor)
  : res Relatorio :=
  caso <~ powerbi_Caso_init linha;;
  if py_eq (classificacao caso) (VStr CONFIRMADOS)
  then tabula_caso r caso
  else Ok r.

(** A [for] loop over the rows: the report is updated in place, so when a row
    raises, the object keeps what the rows before it tallied. *)
Fixpoint percorre (passo : Relatorio → list valor → res Relatorio)
    (r : Relatorio) (linhas : list (list valor)) : Relatorio * option exn :=
  match linhas with
  | [] => (r, None)
  | linha :: resto =>
      match passo r linha with
      | Ok r' => percorre passo r' resto
      | Raise e => (r, Some e)
      end
  end.

(** The six assignments that open [popula_relatorio] in [relatorio.py]. *)
Definition zera_relatorio (r : Relatorio) : Relatorio :=
  let r := com_total (mkContagem 0 (contagem_obitos (totalGeral r))) r in
  let r := com_total (mkContagem (contagem_casosConfirmados (totalGeral r)) 0) r in
  let r := inicializa_dicionario_municipios r in
  let r := com_nMunicipios 0 r in
  let r := com_importados
             (mkContagem 0 (contagem_obitos (importadosOuIndefinidos r))) r in
  com_importados
    (mkContagem (contagem_casosConfirmados (importadosOuIndefinidos r)) 0) r.

(** [Relatorio.popula_relatorio] of [relatorio.py]: the report object after
    the call, and what the call gives back: the copy of the report, or the
    exception that ended the pass. Iterating over unloaded rows ([None]) is a
    [TypeError]. *)
Definition popula_relatorio (r : Relatorio) : Relatorio * res Relatorio :=
  let r := zera_relatorio r in
  match linhasRelatorio r with
  | None => (r, Raise TypeError)
  | Some linhas =>
      match percorre conta_linha r linhas with
      | (r', None) => (r', Ok r')
      | (r', Some e) => (r', Raise e)
      end
  end.

(** [Relatorio.popula_relatorio] of [parse_relatorio_powerbi.py]: no reset
    before the loop and nothing returned. *)
Definition powerbi_popula_relatorio (r : Relatorio) : Relatorio * res unit :=
  match linhasRelatorio r with
  | None => (r, Raise TypeError)
  | Some linhas =>
      match percorre powerbi_conta_linha r linhas with
      | (r', None) => (r', Ok ())
      | (r', Some e) => (r', Raise e)
      end
  end.

(** The comprehension of [Relatorio.filtra_data] in
    [parse_relatorio_powerbi.py]: the classification is searched only when
    the date test holds ([and] does not evaluate its right side otherwise). *)
Fixpoint powerbi_filtra_linhas (dataArrow : Z) (linhas : list (list valor))
  : res (list (list valor)) :=
  match linhas with
  | [] => Ok []
  | caso :: resto =>
      c0 <~ getitem caso 0;;
      t <~ arrow_get_valor FORMATO_DIA c0;;
      manter <~ (if (dataArrow >=? t)%Z
                 then c1 <~ getitem caso 1;; contem CONFIRMADOS c1
                 else Ok false);;
      resto' <~ powerbi_filtra_linhas dataArrow resto;;
      Ok (if manter then caso :: resto' else resto')
  end.

(** [Relatorio.filtra_data] of [parse_relatorio_powerbi.py]; slicing rows
    that were never loaded is a [TypeError]. *)
Definition powerbi_filtra_data (r : Relatorio) (data : string)
  : res (list (list valor)) :=
  match arrow_get FORMATO_DIA data with
  | None => Raise ParserError
  | Some dataArrow =>
      match linhasRelatorio r with
      | None => Raise TypeError
      | Some todas => powerbi_filtra_linhas dataArrow (drop 1 todas)
      end
  end.

(** ** The reader ([relatorio.py], [class LeitorRelatorio]) *)

Definition MENSAGEM_VAZIO : string :=
  "Não é possível filtrar pois o relatório está vazio (use o método popula_relatorio() para preencher o relatório).".

(** Truth value of [self.relatorio.linhasRelatorio]. *)
Definition ha_linhas (ls : option (list (list valor))) : bool :=
  match ls with
  | Some (_ :: _) => true
  | _ => false
  end.

(** [[caso for caso in linhas if criterio(arrow.get(caso[0], formatos))]] *)
Fixpoint filtra_linhas (criterio : Z → bool) (linhas : list (list valor))
  : res (list (list valor)) :=
  match linhas with
  | [] => Ok []
  | caso :: resto =>
      c0 <~ getitem caso 0;;
      t <~ arrow_get_valor FORMATOS_FILTRO c0;;
      resto' <~ filtra_linhas criterio resto;;
      Ok (if criterio t then caso :: resto' else resto')
  end.

(** The body shared by the two filters, which differ in the comparison. *)
Definition filtra_casos (compara : Z → Z → bool) (l : LeitorRelatorio)
    (data : string) : LeitorRelatorio * res Relatorio :=
  if ha_linhas (linhasRelatorio (relatorio l)) then
    match arrow_get FORMATOS_FILTRO data with
    | None => (l, Raise ParserError)
    | Some dataArrow =>
        match leitor_linhasRelatorio l with
        | None => (l, Raise AttributeError)
        | Some todas =>
            match filtra_linhas (compara dataArrow) (drop 1 todas) with
            | Raise e => (l, Raise e)
            | Ok filtradas =>
                let '(r, saida) :=
                  popula_relatorio (com_linhas (Some filtradas) (relatorio l)) in
                (mkLeitor r (leitor_csv l) (leitor_linhasRelatorio l), saida)
            end
        end
    end
  else (l, Raise (RelatorioError MENSAGEM_VAZIO)).

(** [LeitorRelatorio()] without a csv path: the report is [Relatorio()], and
    the reader's own rows are not set. *)
Definition LeitorRelatorio_sem_csv : LeitorRelatorio :=
  mkLeitor (Relatorio_init URL_RELATORIO_CSV) URL_RELATORIO_CSV None.

(** [LeitorRelatorio.carrega_ultimo_relatorio], [baixadas] being the rows
    read from the downloaded csv. *)
Definition carrega_ultimo_relatorio (l : LeitorRelatorio)
    (baixadas : list (list valor)) : LeitorRelatorio * res Relatorio :=
  let '(r, saida) :=
    popula_relatorio
      (com_linhas (Some baixadas) (com_csv URL_RELATORIO_CSV (relatorio l))) in
  (mkLeitor r (leitor_csv l) (Some baixadas), saida).

(** [LeitorRelatorio.filtra_casos_ate_dia]: [dataArrow >= arrow.get(caso[0], ...)] *)
Definition filtra_casos_ate_dia (l : LeitorRelatorio) (data : string)
  : LeitorRelatorio * res Relatorio :=
  filtra_casos (λ dataArrow t, dataArrow >=? t)%Z l data.

(** [LeitorRelatorio.filtra_casos_no_dia]: [dataArrow == arrow.get(caso[0], ...)] *)
Definition filtra_casos_no_dia (l : LeitorRelatorio) (data : string)
  : LeitorRelatorio * res Relatorio :=
  filtra_casos (λ dataArrow t, dataArrow =? t)%Z l data.

(** [LeitorRelatorio(caminhoCSV)] once the csv has been read into [linhas]:
    the reader exists only if the first pass did not raise. *)
Definition LeitorRelatorio_init (caminho : string) (linhas : list (list valor))
  : res LeitorRelatorio :=
  match popula_relatorio (com_linhas (Some linhas) (Relatorio_init caminho)) with
  | (r, Ok _) => Ok (mkLeitor r caminho (Some linhas))
  | (_, Raise e) => Raise e
  end.

(** ** Well-formed reports and the laws stated about them *)

(** Every key of the municipality dict is a registry name: true of a new
    report and kept by every pass, since no method stores under another key. *)
Definition bem_formado (r : Relatorio) : Prop :=
  ∀ k, is_Some (casosMunicipios r !! k) → k ∈ MUNICIPIOS.

(** The conservation law of the counters. *)
Definition conserva (r : Relatorio) : Prop :=
  contagem_casosConfirmados (totalGeral r)
  = (contagem_casosConfirmados (importadosOuIndefinidos r)
     + soma_confirmados (casosMunicipios r))%Z
  ∧ contagem_obitos (totalGeral r)
    = (contagem_obitos (importadosOuIndefinidos r)
       + soma_obitos (casosMunicipios r))%Z.

(** The registry test of the tally. *)
Definition classificado (nomeCaso : string) : bool :=
  bool_decide (remove_caracteres_especiais (str_upper nomeCaso) ∈ MUNICIPIOS).

(** What a classified tally does to its bucket. *)
Definition tabula_municipio (caso : Caso) (m : Municipio) : Municipio :=
  municipio_mais_um_confirmado
    (municipio_anexa_caso caso
       (if obito_pelo_covid caso then municipio_mais_um_obito m else m)).

(** What an unclassified tally leaves. *)
Definition tabula_indefinido (caso : Caso) (r : Relatorio) : Relatorio :=
  mkRelatorio (csv r) (linhasRelatorio r) (casosMunicipios r)
    (mkContagem
       (contagem_casosConfirmados (importadosOuIndefinidos r) + 1)
       (contagem_obitos (importadosOuIndefinidos r)
        + if obito_pelo_covid caso then 1 else 0))
    (mkContagem
       (contagem_casosConfirmados (totalGeral r) + 1)
       (contagem_obitos (totalGeral r)
        + if obito_pelo_covid caso then 1 else 0))
    (nMunicipiosInfectados r).

(** What a classified tally leaves, [m] being the bucket found. *)
Definition tabula_definido (caso : Caso) (nomeCaso : string) (m : Municipio)
    (r : Relatorio) : Relatorio :=
  mkRelatorio (csv r) (linhasRelatorio r)
    (<[nomeCaso := tabula_municipio caso m]> (casosMunicipios r))
    (importadosOuIndefinidos r)
    (mkContagem
       (contagem_casosConfirmados (totalGeral r) + 1)
       (contagem_obitos (totalGeral r)
        + if obito_pelo_covid caso then 1 else 0))
    (nMunicipiosInfectados r
     + if bool_decide (casosConfirmados m = 0%Z) then 1 else 0).

(** The value the boolean vocabulary gives a cell. *)
Definition para_bool (v : valor) : valor := dict_get stringParaBool v VNone.

(** A text cell emptied when it contains the placeholder. *)
Definition anula_por_conteudo (sub s : string) : valor :=
  if str_contem sub s then VNone else VStr s.

(** A cell emptied when it equals one of the placeholders. *)
Definition anula_por_lista (sentinelas : list valor) (c : valor) : valor :=
  if valor_in_lista c sentinelas then VNone else c.

(** The normalised form of a row of at least twelve cells whose date reads as
    [t] and whose cells 3, 9, 10 and 11 are the texts [s3], [s9], [s10] and
    [s11]. *)
Definition linha_normalizada (t : Z) (c1 c2 : valor) (s3 : string)
    (c4 c5 c6 c7 c8 : valor) (s9 s10 s11 : string) (resto : list valor)
  : list valor :=
  [VArrow t; c1; anula_por_lista [VStr "Ignorado"; VStr "-"]%string c2;
   anula_por_conteudo "-" s3; c4; c5;
   anula_por_lista [VStr "Não encontrado"; VStr "NULL"]%string c6; c7; c8;
   anula_por_conteudo "Ignorado" s9; anula_por_conteudo "Ignorado" s10;
   anula_por_conteudo "-" s11]
  ++ (para_bool <$> resto).

(** What a filter leaves once it has kept [linhas]: the report re-aggregated
    over them, the reader's own rows untouched. *)
Definition reagrega (l : LeitorRelatorio) (linhas : list (list valor))
  : LeitorRelatorio * res Relatorio :=
  let '(r, saida) :=
    popula_relatorio (com_linhas (Some linhas) (relatorio l)) in
  (mkLeitor r (leitor_csv l) (leitor_linhasRelatorio l), saida).

(** The keys of the municipality dict are exactly the registry names. *)
Definition chaves_do_registro (r : Relatorio) : Prop :=
  ∀ k, is_Some (casosMunicipios r !! k) ↔ k ∈ MUNICIPIOS.

(** The bucket of [nomeCaso] exists and already counts a case. *)
Definition ja_infectado (nomeCaso : string) (r : Relatorio) : Prop :=
  ∃ m, casosMunicipios r !! nomeCaso = Some m ∧ (1 ≤ casosConfirmados m)%Z.

(** The tally of a list of cases, one after the other. *)
Fixpoint tabula_todos (r : Relatorio) (cs : list Caso) : res Relatorio :=
  match cs with
  | [] => Ok r
  | c :: cs' => r1 <~ tabula_caso r c;; tabula_todos r1 cs'
  end.

(** The cases of [cs], in their order, that are filed under the key [k]:
    those whose municipality is the text [k], when [k] passes the registry
    test. *)
Definition casos_de (k : string) (cs : list Caso) : list Caso :=
  if classificado k
  then List.filter (λ c, bool_decide (municipio c = VStr k)) cs
  else [].

(** A case counted as imported or undefined: its municipality is a text that
    fails the registry test. *)
Definition caso_indefinido (c : Caso) : bool :=
  match municipio c with
  | VStr nomeCaso => negb (classificado nomeCaso)
  | _ => false
  end.

Definition caso_confirmado (c : Caso) : bool :=
  py_eq (classificacao c) (VStr CONFIRMADOS).

(** A bucket after the cases of [cs] filed under [k] have been added. *)
Definition acrescenta (k : string) (cs : list Caso) (m : Municipio)
  : Municipio :=
  mkMunicipio (nome m) (casos m ++ casos_de k cs)
    (casosConfirmados m + Z.of_nat (length (casos_de k cs)))
    (obitos m
     + Z.of_nat (length (List.filter obito_pelo_covid (casos_de k cs)))).

(** A row the pass of [relatorio.py] can tally: it makes a case record whose
    municipality is a text that either fails the registry test or is itself
    a registry name. *)
Definition linha_contavel (linha : list valor) : bool :=
  match Caso_init linha with
  | Ok caso =>
      match municipio caso with
      | VStr nomeCaso =>
          negb (classificado nomeCaso) || bool_decide (nomeCaso ∈ MUNICIPIOS)
      | _ => false
      end
  | Raise _ => false
  end.

(** The buckets that count at least one case. *)
Definition infectado (m : Municipio) : Z :=
  if bool_decide (casosConfirmados m = 0%Z) then 0%Z else 1%Z.

(** Every bucket carries the name it is stored under. *)
Definition nomes_coerentes (r : Relatorio) : Prop :=
  ∀ k m, casosMunicipios r !! k = Some m → nome m = k.

(** No bucket has a negative count, and [nMunicipiosInfectados] is the
    number of buckets that count a case. *)
Definition infectados_coerentes (r : Relatorio) : Prop :=
  (∀ k m, casosMunicipios r !! k = Some m → (0 ≤ casosConfirmados m)%Z)
  ∧ nMunicipiosInfectados r = soma_por infectado (casosMunicipios r).

(** The case records of the rows that make one, in the order of the rows. *)
Definition casos_lidos (linhas : list (list valor)) : list Caso :=
  omap (λ linha, match Caso_init linha with
                 | Ok c => Some c
                 | Raise _ => None
                 end) linhas.

(** The case records the older module makes of the rows. *)
Definition powerbi_casos_lidos (linhas : list (list valor)) : list Caso :=
  omap (λ linha, match powerbi_Caso_init linha with
                 | Ok c => Some c
                 | Raise _ => None
                 end) linhas.

(** The first cell of a row read as a date in the strict format. *)
Definition data_estrita_da_linha (linha : list valor) : option Z :=
  match linha !! 0 with
  | Some (VStr s) => arrow_get FORMATO_DIA s
  | _ => None
  end.

(** The second cell of a row is a text containing "Confirmados". *)
Definition classificacao_contem_confirmados (linha : list valor) : bool :=
  match linha !! 1 with
  | Some (VStr s) => str_contem CONFIRMADOS s
  | _ => false
  end.

(** The first cell of a row read as a date by the filters. *)
Definition data_da_linha (linha : list valor) : option Z :=
  match linha !! 0 with
  | Some (VStr s) => arrow_get FORMATOS_FILTRO s
  | _ => None
  end.

(** The rows the code keeps: the non-header rows whose date satisfies the
    comparison with the target. *)
Definition linhas_mantidas (compara : Z → bool) (todas : list (list valor))
  : list (list valor) :=
  List.filter
    (λ linha, match data_da_linha linha with
              | Some t => compara t
              | None => false
              end)
    (drop 1 todas).

(** The "up to and including" filter as the specification words it: the
    non-header rows that are confirmed and dated on or before the target. *)
Definition ate_dia_segundo_spec (alvo : Z) (todas : list (list valor))
  : list (list valor) :=
  List.filter
    (λ linha, match linha !! 1, data_da_linha linha with
              | Some c, Some t => py_eq c (VStr CONFIRMADOS) && (t <=? alvo)%Z
              | _, _ => false
              end)
    (drop 1 todas).

(** A row the aggregation cannot read: its first cell is not a text in the
    strict day/month/year format, or it has fewer than 27 cells. *)
Definition data_estrita_ok (linha : list valor) : bool :=
  match linha !! 0 with
  | Some (VStr s) => bool_decide (is_Some (arrow_get FORMATO_DIA s))
  | _ => false
  end.

Definition linha_malformada (linha : list valor) : bool :=
  negb (data_estrita_ok linha) || (length linha <? 27).

(** A failed pass as the specification words it, "no partial result": the
    report object a failed pass leaves carries the tally of no row, that is,
    it is the reset report. *)
Definition sem_resultado_parcial_segundo_spec (r : Relatorio) : Prop :=
  ∀ e, (popula_relatorio r).2 = Raise e →
       (popula_relatorio r).1 = zera_relatorio r.

(** The cell is there and is a text. *)
Definition e_texto (c : option valor) : bool :=
  match c with
  | Some (VStr _) => true
  | _ => false
  end.

(** A row the normaliser accepts: a date the strict format reads in the
    first cell, and text in the four cells it searches. *)
Definition linha_tratavel (linha : list valor) : bool :=
  data_estrita_ok linha && e_texto (linha !! 3) && e_texto (linha !! 9)
  && e_texto (linha !! 10) && e_texto (linha !! 11).

(** The sentinel placeholders configured per column, and normalisation by
    equality with one of them, as the specification words it. *)
Definition SENTINELAS : list (nat * list string) :=
  [(2, ["Ignorado"; "-"]); (3, ["-"]); (6, ["Não encontrado"; "NULL"]);
   (9, ["Ignorado"]); (10, ["Ignorado"]); (11, ["-"])]%string.

Definition anula_por_igualdade (sentinelas : list string) (c : valor) : valor :=
  if valor_in_lista c (VStr <$> sentinelas) then VNone else c.

Definition sentinelas_segundo_spec (linha tratada : list valor) : Prop :=
  ∀ i sentinelas c,
    (i, sentinelas) ∈ SENTINELAS →
    linha !! i = Some c →
    tratada !! i = Some (anula_por_igualdade sentinelas c).

(** ** Text lemmas *)

Lemma comeca_com_append (sub resto : string) :
  comeca_com sub (sub +:+ resto) = true.
Proof.
  induction sub as [|a sub IH]; simpl; [done|].
  rewrite bool_decide_eq_true_2 by done. exact IH.
Qed.

Lemma str_contem_append (antes sub depois : string) :
  str_contem sub (antes +:+ sub +:+ depois) = true.
Proof.
  induction antes as [|a antes IH]; simpl.
  - destruct (sub +:+ depois) eqn:E; simpl.
    + destruct sub; [done | discriminate].
    + rewrite <- E, comeca_com_append. done.
  - rewrite IH. apply orb_true_r.
Qed.

(** ** The loop *)

Lemma percorre_app passo r pre pos :
  percorre passo r (pre ++ pos)
  = match percorre passo r pre with
    | (r', None) => percorre passo r' pos
    | (r', Some e) => (r', Some e)
    end.
Proof.
  revert r. induction pre as [|linha pre IH]; intros r; simpl; [done|].
  destruct (passo r linha); [apply IH | done].
Qed.

(** A property kept by every successful turn holds of the report the loop
    leaves, whether it ends or raises. *)
Lemma percorre_invariante (P : Relatorio → Prop) passo :
  (∀ r linha r', P r → passo r linha = Ok r' → P r') →
  ∀ linhas r, P r → P (percorre passo r linhas).1.
Proof.
  intros Hpasso. induction linhas as [|linha linhas IH]; intros r Hr; simpl.
  - done.
  - destruct (passo r linha) eqn:E; simpl; [|done].
    apply IH. eapply Hpasso; eauto.
Qed.

(** ** Sums over the municipality dict *)

Lemma soma_por_insert g (d : gmap string Municipio) k m :
  d !! k = None →
  soma_por g (<[k := m]> d) = (g m + soma_por g d)%Z.
Proof.
  intros Hk. unfold soma_por.
  rewrite map_fold_insert_L; [done | intros; lia | done].
Qed.

Lemma soma_por_alter g f (d : gmap string Municipio) k m :
  d !! k = Some m →
  soma_por g (alter f k d) = (soma_por g d - g m + g (f m))%Z.
Proof.
  intros Hk.
  rewrite <- (insert_delete_id d k m) at 2 by done.
  assert (alter f k d = <[k := f m]> (delete k d)) as ->.
  { apply map_eq. intros j. destruct (decide (k = j)) as [<-|Hne].
    - rewrite lookup_alter_eq, Hk, lookup_insert_eq. done.
    - rewrite lookup_alter_ne, lookup_insert_ne, lookup_delete_ne by done. done. }
  rewrite !soma_por_insert by apply lookup_delete_eq. lia.
Qed.

Lemma soma_por_zero g (d : gmap string Municipio) :
  (∀ k m, d !! k = Some m → g m = 0%Z) → soma_por g d = 0%Z.
Proof.
  induction d as [|k m d Hk IH] using map_ind; intros Hz.
  - done.
  - rewrite soma_por_insert by done.
    rewrite (Hz k m) by apply lookup_insert_eq.
    rewrite IH; [done|]. intros j mj Hj. apply (Hz j).
    rewrite lookup_insert_ne; [done|]. intros ->. congruence.
Qed.

(** ** Resetting the report *)

Lemma inicializa_lookup (nomes : list string) (d : gmap string Municipio) k :
  foldl (λ d municipio, <[municipio := Municipio_init municipio]> d) d nomes !! k
  = if decide (k ∈ nomes) then Some (Municipio_init k) else d !! k.
Proof.
  clear MUNICIPIOS remove_caracteres_especiais str_upper str_strip arrow_get.
  revert d. induction nomes as [|n nomes IH]; intros d; simpl.
  - destruct (decide (k ∈ [])) as [H|H]; [by apply elem_of_nil in H | done].
  - rewrite IH.
    destruct (decide (k ∈ nomes)) as [Hin|Hnin].
    + rewrite decide_True by (rewrite elem_of_cons; tauto). done.
    + destruct (decide (k = n)) as [->|Hne].
      * rewrite decide_True by (rewrite elem_of_cons; tauto).
        apply lookup_insert_eq.
      * rewrite decide_False by (rewrite elem_of_cons; tauto).
        by rewrite lookup_insert_ne.
Qed.

Lemma zera_lookup r k :
  bem_formado r →
  casosMunicipios (zera_relatorio r) !! k
  = if decide (k ∈ MUNICIPIOS) then Some (Municipio_init k) else None.
Proof.
  intros Hbf. simpl. rewrite inicializa_lookup.
  destruct (decide (k ∈ MUNICIPIOS)) as [|Hnin]; [done|].
  destruct (casosMunicipios r !! k) eqn:E; [|done].
  exfalso. apply Hnin, Hbf. rewrite E. eauto.
Qed.

Lemma zera_csv r : csv (zera_relatorio r) = csv r.
Proof. done. Qed.

Lemma zera_linhas r : linhasRelatorio (zera_relatorio r) = linhasRelatorio r.
Proof. done. Qed.

Lemma zera_bem_formado r : bem_formado r → bem_formado (zera_relatorio r).
Proof.
  intros Hbf k [m Hm]. rewrite zera_lookup in Hm by done.
  by destruct (decide (k ∈ MUNICIPIOS)).
Qed.

(** After the reset the report depends on the csv name and the rows only. *)
Lemma zera_determinado r1 r2 :
  bem_formado r1 → bem_formado r2 →
  csv r1 = csv r2 → linhasRelatorio r1 = linhasRelatorio r2 →
  zera_relatorio r1 = zera_relatorio r2.
Proof.
  intros H1 H2 Hcsv Hlin.
  assert (casosMunicipios (zera_relatorio r1) = casosMunicipios (zera_relatorio r2))
    as Hd.
  { apply map_eq. intros k. by rewrite !zera_lookup. }
  unfold zera_relatorio in *. simpl in *. unfold com_importados, com_nMunicipios,
    inicializa_dicionario_municipios, com_municipios, com_total in *. simpl in *.
  by rewrite Hcsv, Hlin, Hd.
Qed.

Lemma zera_conserva r : bem_formado r → conserva (zera_relatorio r).
Proof.
  intros Hbf. unfold conserva, soma_confirmados, soma_obitos.
  rewrite !soma_por_zero; [done| |].
  - intros k m Hm. rewrite zera_lookup in Hm by done.
    destruct (decide (k ∈ MUNICIPIOS)); by simplify_eq.
  - intros k m Hm. rewrite zera_lookup in Hm by done.
    destruct (decide (k ∈ MUNICIPIOS)); by simplify_eq.
Qed.

Lemma Relatorio_init_bem_formado origem : bem_formado (Relatorio_init origem).
Proof.
  intros k [m Hm]. unfold Relatorio_init in Hm. simpl in Hm.
  rewrite inicializa_lookup in Hm.
  destruct (decide (k ∈ MUNICIPIOS)); [done|]. by rewrite lookup_empty in Hm.
Qed.

(** ** One tally *)

Lemma tabula_caso_classificado r caso nomeCaso m :
  municipio caso = VStr nomeCaso →
  classificado nomeCaso = true →
  casosMunicipios r !! nomeCaso = Some m →
  tabula_caso r caso = Ok (tabula_definido caso nomeCaso m r).
Proof.
  intros Hmun Hcl Hm. unfold tabula_caso, tabula_definido, classificado in *.
  rewrite Hmun, Hcl. 
  assert (∀ f g h (d : gmap string Municipio), d !! nomeCaso = Some m →
          alter f nomeCaso (alter g nomeCaso (alter h nomeCaso d))
          = <[nomeCaso := f (g (h m))]> d) as Halt.
  { intros f g h d Hd. apply map_eq. intros j.
    destruct (decide (nomeCaso = j)) as [<-|Hne].
    - rewrite !lookup_alter_eq, Hd, lookup_insert_eq. done.
    - rewrite !lookup_alter_ne, lookup_insert_ne by done. done. }
  assert (∀ f g (d : gmap string Municipio), d !! nomeCaso = Some m →
          alter f nomeCaso (alter g nomeCaso d)
          = <[nomeCaso := f (g m)]> d) as Halt2.
  { intros f g d Hd. apply map_eq. intros j.
    destruct (decide (nomeCaso = j)) as [<-|Hne].
    - rewrite !lookup_alter_eq, Hd, lookup_insert_eq. done.
    - rewrite !lookup_alter_ne, lookup_insert_ne by done. done. }
  rewrite Hm. unfold tabula_municipio.
  destruct (bool_decide (casosConfirmados m = 0%Z)), (obito_pelo_covid caso);
    simpl; unfold com_total, com_municipios, com_nMunicipios; simpl;
    rewrite ?Halt, ?Halt2 by done; do 2 f_equal;
    first [ done | lia
          | unfold mais_um_confirmado, mais_um_obito; simpl; f_equal; lia ].
Qed.

Lemma tabula_caso_indefinido r caso nomeCaso :
  municipio caso = VStr nomeCaso →
  classificado nomeCaso = false →
  tabula_caso r caso = Ok (tabula_indefinido caso r).
Proof.
  intros Hmun Hcl. unfold tabula_caso, tabula_indefinido, classificado in *.
  rewrite Hmun, Hcl. destruct (obito_pelo_covid caso); simpl;
    unfold com_total, com_importados, mais_um_confirmado, mais_um_obito; simpl;
    do 2 f_equal; f_equal; lia.
Qed.

Lemma tabula_caso_sem_chave r caso nomeCaso :
  municipio caso = VStr nomeCaso →
  classificado nomeCaso = true →
  casosMunicipios r !! nomeCaso = None →
  tabula_caso r caso = Raise (KeyError (VStr nomeCaso)).
Proof.
  intros Hmun Hcl Hm. unfold tabula_caso, classificado in *.
  by rewrite Hmun, Hcl, Hm.
Qed.

Lemma tabula_caso_sem_texto r caso :
  (∀ nomeCaso, municipio caso ≠ VStr nomeCaso) →
  tabula_caso r caso = Raise AttributeError.
Proof.
  intros Hmun. unfold tabula_caso.
  destruct (municipio caso) eqn:E; try done. by destruct (Hmun s).
Qed.

(** Every successful tally is one of the two above. *)
Lemma tabula_caso_Ok r caso r' :
  tabula_caso r caso = Ok r' →
  ∃ nomeCaso, municipio caso = VStr nomeCaso ∧
    ((classificado nomeCaso = true ∧
      ∃ m, casosMunicipios r !! nomeCaso = Some m ∧
           r' = tabula_definido caso nomeCaso m r)
     ∨ (classificado nomeCaso = false ∧ r' = tabula_indefinido caso r)).
Proof.
  intros Hok. destruct (municipio caso) as [nomeCaso| | | |] eqn:Hmun;
    try (rewrite tabula_caso_sem_texto in Hok by congruence; discriminate).
  exists nomeCaso. split; [done|].
  destruct (classificado nomeCaso) eqn:Hcl.
  - left. split; [done|].
    destruct (casosMunicipios r !! nomeCaso) as [m|] eqn:Hm.
    + exists m. split; [done|].
      rewrite (tabula_caso_classificado r caso nomeCaso m) in Hok by done.
      congruence.
    + rewrite (tabula_caso_sem_chave r caso nomeCaso) in Hok by done.
      discriminate.
  - right. split; [done|].
    rewrite (tabula_caso_indefinido r caso nomeCaso) in Hok by done.
    congruence.
Qed.

Lemma tabula_caso_bem_formado r caso r' :
  bem_formado r → tabula_caso r caso = Ok r' → bem_formado r'.
Proof.
  intros Hbf Hok.
  destruct (tabula_caso_Ok _ _ _ Hok)
    as (nomeCaso & _ & [(_ & m & Hm & ->)|(_ & ->)]); [|exact Hbf].
  intros k [mk Hk]. simpl in Hk.
  destruct (decide (nomeCaso = k)) as [<-|Hne].
  - apply Hbf. rewrite Hm. eauto.
  - rewrite lookup_insert_ne in Hk by done. apply Hbf. rewrite Hk. eauto.
Qed.

Lemma tabula_caso_csv_linhas r caso r' :
  tabula_caso r caso = Ok r' →
  csv r' = csv r ∧ linhasRelatorio r' = linhasRelatorio r.
Proof.
  intros Hok.
  by destruct (tabula_caso_Ok _ _ _ Hok)
    as (nomeCaso & _ & [(_ & m & Hm & ->)|(_ & ->)]).
Qed.

Lemma soma_por_tabula g caso (d : gmap string Municipio) k m :
  d !! k = Some m →
  soma_por g (<[k := tabula_municipio caso m]> d)
  = (soma_por g d - g m + g (tabula_municipio caso m))%Z.
Proof.
  intros Hk.
  rewrite <- (soma_por_alter g (λ _, tabula_municipio caso m) d k m) by done.
  f_equal. apply map_eq. intros j. destruct (decide (k = j)) as [<-|Hne].
  - by rewrite lookup_insert_eq, lookup_alter_eq, Hk.
  - by rewrite lookup_insert_ne, lookup_alter_ne.
Qed.

Lemma tabula_caso_conserva r caso r' :
  conserva r → tabula_caso r caso = Ok r' → conserva r'.
Proof.
  intros [Hc Ho] Hok.
  destruct (tabula_caso_Ok _ _ _ Hok)
    as (nomeCaso & _ & [(_ & m & Hm & ->)|(_ & ->)]);
    unfold conserva, soma_confirmados, soma_obitos in *; simpl.
  - rewrite !soma_por_tabula by done. unfold tabula_municipio.
    destruct (obito_pelo_covid caso); simpl; lia.
  - lia.
Qed.

(** ** The pass *)

Lemma conta_linha_Ok r linha r' :
  conta_linha r linha = Ok r' →
  ∃ caso, Caso_init linha = Ok caso ∧ tabula_caso r caso = Ok r'.
Proof.
  unfold conta_linha, tenta. destruct (Caso_init linha) as [caso|]; [eauto|done].
Qed.

Lemma percorre_bem_formado linhas r :
  bem_formado r → bem_formado (percorre conta_linha r linhas).1.
Proof.
  apply (percorre_invariante bem_formado). intros r0 linha r' Hr Hok.
  destruct (conta_linha_Ok _ _ _ Hok) as (caso & _ & Ht).
  eauto using tabula_caso_bem_formado.
Qed.

Lemma percorre_conserva linhas r :
  conserva r → conserva (percorre conta_linha r linhas).1.
Proof.
  apply (percorre_invariante conserva). intros r0 linha r' Hr Hok.
  destruct (conta_linha_Ok _ _ _ Hok) as (caso & _ & Ht).
  eauto using tabula_caso_conserva.
Qed.

Lemma percorre_csv_linhas linhas r :
  csv (percorre conta_linha r linhas).1 = csv r
  ∧ linhasRelatorio (percorre conta_linha r linhas).1 = linhasRelatorio r.
Proof.
  apply (percorre_invariante
           (λ x, csv x = csv r ∧ linhasRelatorio x = linhasRelatorio r));
    [|done].
  intros r0 linha r' [Hc Hl] Hok.
  destruct (conta_linha_Ok _ _ _ Hok) as (caso & _ & Ht).
  destruct (tabula_caso_csv_linhas _ _ _ Ht). split; congruence.
Qed.

(** The report object the pass leaves is the loop's. *)
Lemma popula_relatorio_estado r linhas :
  linhasRelatorio r = Some linhas →
  (popula_relatorio r).1 = (percorre conta_linha (zera_relatorio r) linhas).1.
Proof.
  intros Hl. unfold popula_relatorio. cbv zeta. rewrite zera_linhas, Hl.
  by destruct (percorre conta_linha (zera_relatorio r) linhas) as [r' [e|]].
Qed.

Lemma popula_relatorio_sem_linhas r :
  linhasRelatorio r = None →
  popula_relatorio r = (zera_relatorio r, Raise TypeError).
Proof. intros Hl. unfold popula_relatorio. cbv zeta. by rewrite zera_linhas, Hl. Qed.

Lemma popula_relatorio_bem_formado r :
  bem_formado r → bem_formado (popula_relatorio r).1.
Proof.
  intros Hbf. destruct (linhasRelatorio r) as [linhas|] eqn:Hl.
  - rewrite (popula_relatorio_estado r linhas) by done.
    by apply percorre_bem_formado, zera_bem_formado.
  - rewrite popula_relatorio_sem_linhas by done. by apply zera_bem_formado.
Qed.

Lemma popula_relatorio_csv_linhas r :
  csv (popula_relatorio r).1 = csv r
  ∧ linhasRelatorio (popula_relatorio r).1 = linhasRelatorio r.
Proof.
  destruct (linhasRelatorio r) as [linhas|] eqn:Hl.
  - rewrite (popula_relatorio_estado r linhas) by done.
    destruct (percorre_csv_linhas linhas (zera_relatorio r)) as [-> ->].
    done.
  - rewrite popula_relatorio_sem_linhas by done. done.
Qed.

(** After the reset the pass reads nothing of the report but its rows. *)
Lemma popula_relatorio_determinado r1 r2 :
  bem_formado r1 → bem_formado r2 →
  csv r1 = csv r2 → linhasRelatorio r1 = linhasRelatorio r2 →
  popula_relatorio r1 = popula_relatorio r2.
Proof.
  intros H1 H2 Hc Hl. unfold popula_relatorio. cbv zeta.
  by rewrite (zera_determinado r1 r2).
Qed.

(** C2. Conservation: after an aggregation pass over any rows, whether the
    pass returned or raised, the report's global confirmed count equals the
    unclassified confirmed count plus the sum of the confirmed counts of all
    the municipalities of [casosMunicipios]; the same for the deaths. *)
Theorem popula_relatorio_conserva r :
  bem_formado r →
  let r' := (popula_relatorio r).1 in
  contagem_casosConfirmados (totalGeral r')
  = (contagem_casosConfirmados (importadosOuIndefinidos r')
     + soma_confirmados (casosMunicipios r'))%Z
  ∧ contagem_obitos (totalGeral r')
    = (contagem_obitos (importadosOuIndefinidos r')
       + soma_obitos (casosMunicipios r'))%Z.
Proof.
  intros Hbf r'. subst r'. change (conserva (popula_relatorio r).1).
  destruct (linhasRelatorio r) as [linhas|] eqn:Hl.
  - rewrite (popula_relatorio_estado r linhas) by done.
    by apply percorre_conserva, zera_conserva.
  - rewrite popula_relatorio_sem_linhas by done. by apply zera_conserva.
Qed.

(** C6. Idempotence: a second pass over the same rows leaves the same report
    (the same buckets, unclassified and global counters and number of
    infected municipalities) and ends the same way as the first, because the
    pass starts from zeroed counters and one fresh bucket per registry name. *)
Theorem popula_relatorio_idempotente r :
  bem_formado r →
  popula_relatorio (popula_relatorio r).1 = popula_relatorio r.
Proof.
  intros Hbf. apply popula_relatorio_determinado.
  - by apply popula_relatorio_bem_formado.
  - done.
  - apply popula_relatorio_csv_linhas.
  - apply popula_relatorio_csv_linhas.
Qed.

Lemma zera_chaves r : bem_formado r → chaves_do_registro (zera_relatorio r).
Proof.
  intros Hbf k. rewrite zera_lookup by done.
  by destruct (decide (k ∈ MUNICIPIOS)); split.
Qed.

Lemma tabula_caso_chaves r caso r' :
  chaves_do_registro r → tabula_caso r caso = Ok r' → chaves_do_registro r'.
Proof.
  intros Hch Hok.
  destruct (tabula_caso_Ok _ _ _ Hok)
    as (nomeCaso & _ & [(_ & m & Hm & ->)|(_ & ->)]); [|exact Hch].
  intros k. specialize (Hch k). simpl.
  destruct (decide (nomeCaso = k)) as [<-|Hne].
  - rewrite lookup_insert_eq. rewrite Hm in Hch.
    split; [intros _; apply Hch; eauto | eauto].
  - by rewrite lookup_insert_ne.
Qed.

Lemma percorre_chaves linhas r :
  chaves_do_registro r → chaves_do_registro (percorre conta_linha r linhas).1.
Proof.
  apply (percorre_invariante chaves_do_registro). intros r0 linha r' Hr Hok.
  destruct (conta_linha_Ok _ _ _ Hok) as (caso & _ & Ht).
  eauto using tabula_caso_chaves.
Qed.

Lemma tabula_caso_ja_infectado nomeCaso r caso r' :
  ja_infectado nomeCaso r → tabula_caso r caso = Ok r' →
  ja_infectado nomeCaso r'.
Proof.
  intros (m & Hm & Hpos) Hok.
  destruct (tabula_caso_Ok _ _ _ Hok)
    as (outro & _ & [(_ & mo & Hmo & ->)|(_ & ->)]); [|by exists m].
  unfold ja_infectado. simpl.
  destruct (decide (outro = nomeCaso)) as [->|Hne].
  - rewrite lookup_insert_eq. eexists. split; [done|].
    assert (mo = m) as -> by congruence.
    unfold tabula_municipio. destruct (obito_pelo_covid caso); simpl; lia.
  - rewrite lookup_insert_ne by done. by exists m.
Qed.

Lemma percorre_ja_infectado nomeCaso linhas r :
  ja_infectado nomeCaso r →
  ja_infectado nomeCaso (percorre conta_linha r linhas).1.
Proof.
  apply (percorre_invariante (ja_infectado nomeCaso)). intros r0 linha r' Hr Hok.
  destruct (conta_linha_Ok _ _ _ Hok) as (caso & _ & Ht).
  eauto using tabula_caso_ja_infectado.
Qed.

(** C7. Newly infected municipalities: tallying a case of a municipality
    whose confirmed count is zero adds exactly 1 to [nMunicipiosInfectados];
    after any further rows of the pass, tallying another case of the same
    municipality adds nothing. Neither case's outcome ([evolucao]) is
    constrained, so the increment does not depend on the death status. *)
Theorem primeiro_caso_conta_municipio r c1 nomeCaso m :
  municipio c1 = VStr nomeCaso →
  classificado nomeCaso = true →
  casosMunicipios r !! nomeCaso = Some m →
  casosConfirmados m = 0%Z →
  ∃ r1, tabula_caso r c1 = Ok r1
    ∧ nMunicipiosInfectados r1 = (nMunicipiosInfectados r + 1)%Z
    ∧ ∀ linhas c2,
        municipio c2 = VStr nomeCaso →
        let r2 := (percorre conta_linha r1 linhas).1 in
        ∃ r3, tabula_caso r2 c2 = Ok r3
          ∧ nMunicipiosInfectados r3 = nMunicipiosInfectados r2.
Proof.
  intros Hmun Hcl Hm Hzero.
  exists (tabula_definido c1 nomeCaso m r). split; [|split].
  - by apply tabula_caso_classificado.
  - simpl. by rewrite bool_decide_eq_true_2.
  - intros linhas c2 Hmun2 r2.
    assert (ja_infectado nomeCaso r2) as (m2 & Hm2 & Hpos).
    { apply percorre_ja_infectado. unfold ja_infectado. simpl.
      rewrite lookup_insert_eq. eexists. split; [done|].
      unfold tabula_municipio. destruct (obito_pelo_covid c1); simpl; lia. }
    exists (tabula_definido c2 nomeCaso m2 r2). split.
    + by apply tabula_caso_classificado.
    + simpl. rewrite bool_decide_eq_false_2 by lia. lia.
Qed.

(** C10. The registry test reads the normalised name but the dict is indexed
    with the raw one: in a pass, a row that passes the test is tallied
    without error exactly when its raw name is itself a registry name; when
    it is not, the pass ends there with a [KeyError] on the raw name. *)
Theorem nome_cru_indexa_dicionario r pre linha pos caso nomeCaso r' :
  bem_formado r →
  linhasRelatorio r = Some (pre ++ linha :: pos) →
  percorre conta_linha (zera_relatorio r) pre = (r', None) →
  Caso_init linha = Ok caso →
  municipio caso = VStr nomeCaso →
  classificado nomeCaso = true →
  ((∃ r'', conta_linha r' linha = Ok r'') ↔ nomeCaso ∈ MUNICIPIOS)
  ∧ (nomeCaso ∉ MUNICIPIOS →
     popula_relatorio r = (r', Raise (KeyError (VStr nomeCaso)))).
Proof.
  intros Hbf Hl Hpre Hcaso Hmun Hcl.
  assert (chaves_do_registro r') as Hch.
  { change r' with (r', @None exn).1. rewrite <- Hpre.
    by apply percorre_chaves, zera_chaves. }
  assert (conta_linha r' linha = tabula_caso r' caso) as Hconta.
  { unfold conta_linha. by rewrite Hcaso. }
  split.
  - rewrite Hconta. specialize (Hch nomeCaso). rewrite <- Hch. split.
    + intros [r'' Hok].
      destruct (casosMunicipios r' !! nomeCaso) eqn:E; [eauto|].
      rewrite (tabula_caso_sem_chave r' caso nomeCaso) in Hok by done.
      discriminate.
    + intros [m Hm]. eexists. by apply tabula_caso_classificado.
  - intros Hnin. unfold popula_relatorio. cbv zeta.
    rewrite zera_linhas, Hl, percorre_app, Hpre. simpl.
    rewrite Hconta, (tabula_caso_sem_chave r' caso nomeCaso); [done..|].
    destruct (casosMunicipios r' !! nomeCaso) eqn:E; [|done].
    exfalso. apply Hnin, (Hch nomeCaso). rewrite E. eauto.
Qed.

(** ** The normaliser *)

Lemma tenta_Ok {A B} (m : res A) (k : A → res B) b :
  tenta m k = Ok b ↔ ∃ a, m = Ok a ∧ k a = Ok b.
Proof.
  unfold tenta. destruct m as [a|e]; split.
  - eauto.
  - by intros (a' & [= <-] & Hk).
  - done.
  - by intros (a' & ? & _).
Qed.

Lemma getitem_Ok l i v : getitem l i = Ok v ↔ l !! i = Some v.
Proof. unfold getitem. destruct (l !! i); split; congruence. Qed.

Lemma arrow_get_valor_Ok formatos v t :
  arrow_get_valor formatos v = Ok t ↔
  ∃ s, v = VStr s ∧ arrow_get formatos s = Some t.
Proof.
  unfold arrow_get_valor. split.
  - destruct v as [s| | | |]; try done.
    destruct (arrow_get formatos s) eqn:E; [|done]. intros [= <-]. eauto.
  - intros (s & -> & ->). done.
Qed.

Lemma anula_se_contem_Ok sub i l l' :
  anula_se_contem sub i l = Ok l' ↔
  ∃ s, l !! i = Some (VStr s) ∧ l' = <[i := anula_por_conteudo sub s]> l.
Proof.
  unfold anula_se_contem, tenta, getitem, contem, anula_por_conteudo.
  destruct (l !! i) as [[s| | | |]|] eqn:E; split;
    try done; try (by intros (s' & [= ] & _)).
  - intros [= <-]. exists s. split; [done|].
    destruct (str_contem sub s); [done|]. by rewrite list_insert_id.
  - intros (s' & [= <-] & ->).
    destruct (str_contem sub s); [done|]. by rewrite list_insert_id.
Qed.

Lemma anula_se_igual_Ok sentinelas i l l' :
  anula_se_igual sentinelas i l = Ok l' ↔
  ∃ c, l !! i = Some c ∧ l' = <[i := anula_por_lista sentinelas c]> l.
Proof.
  unfold anula_se_igual, tenta, getitem, anula_por_lista.
  destruct (l !! i) as [c|] eqn:E; split;
    try done; try (by intros (c' & [= ] & _)).
  - intros [= <-]. exists c. split; [done|].
    destruct (valor_in_lista c sentinelas); [done|]. by rewrite list_insert_id.
  - intros (c' & [= <-] & ->).
    destruct (valor_in_lista c sentinelas); [done|]. by rewrite list_insert_id.
Qed.

Lemma laco_booleanos_lookup n (l : list valor) j :
  foldl (λ l i, alter (λ v, dict_get stringParaBool v VNone) (i + 12) l)
        l (seq 0 n) !! j
  = if decide (12 ≤ j < 12 + n) then para_bool <$> l !! j else l !! j.
Proof.
  induction n as [|n IH].
  - simpl. by rewrite decide_False by lia.
  - rewrite seq_S, foldl_app. cbn [foldl]. change (0 + n) with n.
    destruct (decide (j = n + 12)) as [->|Hne].
    + rewrite list_lookup_alter_eq, IH.
      rewrite decide_False by lia. by rewrite decide_True by lia.
    + rewrite list_lookup_alter_ne by done. rewrite IH.
      destruct (decide (12 ≤ j < 12 + n)).
      * by rewrite decide_True by lia.
      * by rewrite decide_False by lia.
Qed.

Lemma converte_booleanos_doze c0 c1 c2 c3 c4 c5 c6 c7 c8 c9 c10 c11 resto :
  converte_booleanos
    (c0 :: c1 :: c2 :: c3 :: c4 :: c5 :: c6 :: c7 :: c8 :: c9 :: c10 :: c11
        :: resto)
  = c0 :: c1 :: c2 :: c3 :: c4 :: c5 :: c6 :: c7 :: c8 :: c9 :: c10 :: c11
       :: (para_bool <$> resto).
Proof.
  apply list_eq. intros j. unfold converte_booleanos.
  rewrite laco_booleanos_lookup.
  do 12 (destruct j as [|j]; [by rewrite decide_False by lia|]).
  simpl. rewrite list_lookup_fmap.
  destruct (decide (12 ≤ _ < _)) as [|Hfora]; [done|].
  rewrite drop_0 in Hfora. rewrite (lookup_ge_None_2 resto j) by lia. done.
Qed.

(** The normaliser returns exactly on the rows of at least twelve cells whose
    first cell is a text the strict format reads and whose cells 3, 9, 10 and
    11 are texts, and then returns their normalised form. *)
Lemma trata_dados_linha_Ok linha tratada :
  trata_dados_linha linha = Ok tratada ↔
  ∃ s0 t c1 c2 s3 c4 c5 c6 c7 c8 s9 s10 s11 resto,
    linha = VStr s0 :: c1 :: c2 :: VStr s3 :: c4 :: c5 :: c6 :: c7 :: c8
              :: VStr s9 :: VStr s10 :: VStr s11 :: resto
    ∧ arrow_get FORMATO_DIA s0 = Some t
    ∧ tratada
      = linha_normalizada t c1 c2 s3 c4 c5 c6 c7 c8 s9 s10 s11 resto.
Proof.
  unfold trata_dados_linha. split.
  - intros Hok.
    apply tenta_Ok in Hok as (c0 & H0%getitem_Ok & Hok).
    apply tenta_Ok in Hok as (t & (s0 & -> & Ht)%arrow_get_valor_Ok & Hok).
    cbv zeta in Hok.
    apply tenta_Ok in Hok as (l2 & (c2 & H2 & ->)%anula_se_igual_Ok & Hok).
    apply tenta_Ok in Hok as (l3 & (s3 & H3 & ->)%anula_se_contem_Ok & Hok).
    apply tenta_Ok in Hok as (l6 & (c6 & H6 & ->)%anula_se_igual_Ok & Hok).
    apply tenta_Ok in Hok as (l9 & (s9 & H9 & ->)%anula_se_contem_Ok & Hok).
    apply tenta_Ok in Hok as (l10 & (s10 & H10 & ->)%anula_se_contem_Ok & Hok).
    apply tenta_Ok in Hok as (l11 & (s11 & H11 & ->)%anula_se_contem_Ok & Hok).
    injection Hok as <-.
    rewrite !list_lookup_insert_ne in H2, H3, H6, H9, H10, H11 by lia.
    destruct linha as [|c0 [|c1 [|c2' [|c3 [|c4 [|c5 [|c6' [|c7 [|c8 [|c9 [|c10
      [|c11 resto]]]]]]]]]]]]; try done.
    simpl in *. simplify_eq.
    do 14 eexists. split; [done|]. split; [done|].
    by rewrite converte_booleanos_doze.
  - intros (s0 & t & c1 & c2 & s3 & c4 & c5 & c6 & c7 & c8 & s9 & s10 & s11
            & resto & -> & Ht & ->).
    apply tenta_Ok. eexists. split; [by apply getitem_Ok|].
    apply tenta_Ok. eexists. split; [apply arrow_get_valor_Ok; eauto|].
    cbv zeta.
    apply tenta_Ok. eexists. split; [apply anula_se_igual_Ok; eauto|].
    apply tenta_Ok. eexists. split; [apply anula_se_contem_Ok; eauto|].
    apply tenta_Ok. eexists. split; [apply anula_se_igual_Ok; eauto|].
    apply tenta_Ok. eexists. split; [apply anula_se_contem_Ok; eauto|].
    apply tenta_Ok. eexists. split; [apply anula_se_contem_Ok; eauto|].
    apply tenta_Ok. eexists. split; [apply anula_se_contem_Ok; eauto|].
    simpl. by rewrite converte_booleanos_doze.
Qed.

(** ** Rows the pass cannot read *)

Lemma linha_normalizada_length t c1 c2 s3 c4 c5 c6 c7 c8 s9 s10 s11 resto :
  length (linha_normalizada t c1 c2 s3 c4 c5 c6 c7 c8 s9 s10 s11 resto)
  = 12 + length resto.
Proof. unfold linha_normalizada. rewrite length_app, length_fmap. done. Qed.

Lemma trata_dados_linha_length linha tratada :
  trata_dados_linha linha = Ok tratada → length tratada = length linha.
Proof.
  intros (s0 & t & c1 & c2 & s3 & c4 & c5 & c6 & c7 & c8 & s9 & s10 & s11
          & resto & -> & _ & ->)%trata_dados_linha_Ok.
  by rewrite linha_normalizada_length.
Qed.

Lemma trata_dados_linha_data linha tratada :
  trata_dados_linha linha = Ok tratada → data_estrita_ok linha = true.
Proof.
  intros (s0 & t & c1 & c2 & s3 & c4 & c5 & c6 & c7 & c8 & s9 & s10 & s11
          & resto & -> & Ht & ->)%trata_dados_linha_Ok.
  unfold data_estrita_ok. simpl. rewrite Ht. by apply bool_decide_eq_true_2.
Qed.

Lemma carrega_dados_linha_bem_formada linha caso :
  carrega_dados_linha linha = Ok caso → linha_malformada linha = false.
Proof.
  unfold carrega_dados_linha. intros Hok.
  apply tenta_Ok in Hok as (tratada & Htrata & Hok).
  repeat (apply tenta_Ok in Hok as (? & ? & Hok)).
  match goal with
  | H : getitem tratada 26 = Ok _ |- _ =>
      apply getitem_Ok, lookup_lt_Some in H;
      rewrite (trata_dados_linha_length _ _ Htrata) in H
  end.
  unfold linha_malformada.
  rewrite (trata_dados_linha_data _ _ Htrata). simpl.
  apply Nat.ltb_ge. lia.
Qed.

Lemma conta_linha_malformada r linha :
  linha_malformada linha = true → ∃ e, conta_linha r linha = Raise e.
Proof.
  intros Hruim. destruct (conta_linha r linha) as [r'|e] eqn:E; [|eauto].
  exfalso. apply conta_linha_Ok in E as (caso & Hcaso & Htab).
  destruct linha as [|c0 resto].
  - injection Hcaso as <-. by rewrite tabula_caso_sem_texto in Htab.
  - apply carrega_dados_linha_bem_formada in Hcaso. congruence.
Qed.

(** C8 (as amended). A pass over rows that include one whose first cell is not
    a text in the strict day/month/year format, or one of fewer than 27
    cells, raises and returns no report. When the rows before it are tallied
    without error the exception is raised at that row, and the report object,
    which the pass updates in place, is left holding the tallies of the rows
    before it and of no other row: a partial result stays in the object, the
    row is not skipped and nothing after it is read. *)
Theorem linha_malformada_interrompe r pre ruim pos :
  linhasRelatorio r = Some (pre ++ ruim :: pos) →
  linha_malformada ruim = true →
  (∃ e, (popula_relatorio r).2 = Raise e)
  ∧ ∀ r', percorre conta_linha (zera_relatorio r) pre = (r', None) →
      ∃ e, conta_linha r' ruim = Raise e
           ∧ popula_relatorio r = (r', Raise e).
Proof.
  intros Hl Hruim.
  assert (∀ r', percorre conta_linha (zera_relatorio r) pre = (r', None) →
      ∃ e, conta_linha r' ruim = Raise e
           ∧ popula_relatorio r = (r', Raise e)) as Hparte.
  { intros r' Hpre. destruct (conta_linha_malformada r' ruim Hruim) as [e He].
    exists e. split; [done|]. unfold popula_relatorio. cbv zeta.
    rewrite zera_linhas, Hl, percorre_app, Hpre. simpl. by rewrite He. }
  split; [|done].
  destruct (percorre conta_linha (zera_relatorio r) pre) as [r' [e|]] eqn:Hpre.
  - exists e. unfold popula_relatorio. cbv zeta.
    by rewrite zera_linhas, Hl, percorre_app, Hpre.
  - destruct (Hparte r' eq_refl) as (e & _ & ->). eauto.
Qed.

(** ** The date filters *)

Lemma data_da_linha_Some linha t :
  data_da_linha linha = Some t ↔
  ∃ s, linha !! 0 = Some (VStr s) ∧ arrow_get FORMATOS_FILTRO s = Some t.
Proof.
  unfold data_da_linha. split.
  - destruct (linha !! 0) as [[s| | | |]|]; try done. eauto.
  - by intros (s & -> & ->).
Qed.

Lemma filtra_linhas_datadas criterio linhas :
  (∀ linha, linha ∈ linhas → is_Some (data_da_linha linha)) →
  filtra_linhas criterio linhas
  = Ok (List.filter
          (λ linha, match data_da_linha linha with
                    | Some t => criterio t
                    | None => false
                    end)
          linhas).
Proof.
  induction linhas as [|linha linhas IH]; intros Hdatas; [done|].
  destruct (Hdatas linha) as [t Ht]; [left|].
  pose proof Ht as (s & Hs & Hget)%data_da_linha_Some.
  simpl. rewrite Ht. unfold getitem. rewrite Hs. simpl. rewrite Hget. simpl.
  rewrite IH by (intros ? ?; apply Hdatas; by right). simpl.
  by destruct (criterio t).
Qed.

(** The first row whose first cell is no readable date makes the
    comprehension raise. *)
Lemma filtra_linhas_sem_data criterio pre linha pos :
  (∀ l, l ∈ pre → is_Some (data_da_linha l)) →
  data_da_linha linha = None →
  ∃ e, filtra_linhas criterio (pre ++ linha :: pos) = Raise e.
Proof.
  intros Hpre Hnone. induction pre as [|p pre IH]; simpl.
  - unfold data_da_linha in Hnone. unfold getitem, arrow_get_valor.
    destruct (linha !! 0) as [[s| | | |]|]; simpl; eauto.
    rewrite Hnone. simpl. eauto.
  - destruct (Hpre p) as [t Ht]; [left|].
    apply data_da_linha_Some in Ht as (s & Hs & Hget).
    unfold getitem. rewrite Hs. simpl. rewrite Hget. simpl.
    destruct IH as [e ->]; [intros ? ?; apply Hpre; by right|]. simpl. eauto.
Qed.

Lemma filtra_casos_mantidas compara l data alvo todas :
  ha_linhas (linhasRelatorio (relatorio l)) = true →
  leitor_linhasRelatorio l = Some todas →
  arrow_get FORMATOS_FILTRO data = Some alvo →
  (∀ linha, linha ∈ drop 1 todas → is_Some (data_da_linha linha)) →
  filtra_casos compara l data
  = reagrega l (linhas_mantidas (compara alvo) todas).
Proof.
  intros Hha Htodas Halvo Hdatas. unfold filtra_casos, reagrega.
  rewrite Hha, Halvo, Htodas, filtra_linhas_datadas by done. done.
Qed.

Lemma linhas_mantidas_ext f g todas :
  (∀ t, f t = g t) → linhas_mantidas f todas = linhas_mantidas g todas.
Proof.
  intros Hfg. unfold linhas_mantidas. apply filter_ext. intros linha.
  destruct (data_da_linha linha); [apply Hfg | done].
Qed.

Lemma reagrega_linhas l linhas :
  linhasRelatorio (relatorio (reagrega l linhas).1) = Some linhas.
Proof.
  unfold reagrega.
  pose proof (popula_relatorio_csv_linhas
                (com_linhas (Some linhas) (relatorio l))) as [_ Hl].
  destruct (popula_relatorio _) as [r saida]. exact Hl.
Qed.

Lemma filtros_mantem_por_data_aux l data alvo todas :
  ha_linhas (linhasRelatorio (relatorio l)) = true →
  leitor_linhasRelatorio l = Some todas →
  arrow_get FORMATOS_FILTRO data = Some alvo →
  (∀ linha, linha ∈ drop 1 todas → is_Some (data_da_linha linha)) →
  filtra_casos_ate_dia l data
  = reagrega l (linhas_mantidas (λ t, t <=? alvo)%Z todas)
  ∧ filtra_casos_no_dia l data
    = reagrega l (linhas_mantidas (λ t, t =? alvo)%Z todas).
Proof.
  intros Hha Htodas Halvo Hdatas. split.
  - unfold filtra_casos_ate_dia.
    rewrite (filtra_casos_mantidas _ l data alvo todas) by done.
    f_equal. apply linhas_mantidas_ext. intros t. apply Z.geb_leb.
  - unfold filtra_casos_no_dia.
    rewrite (filtra_casos_mantidas _ l data alvo todas) by done.
    f_equal. apply linhas_mantidas_ext. intros t. apply Z.eqb_sym.
Qed.

(** C3 (as amended). On a reader whose report currently holds at least one
    row and whose own loaded rows all carry, after the header, a date that
    the accepted formats read, and for a target date those formats read,
    [filtra_casos_ate_dia] keeps exactly the non-header rows dated on or
    before the target, whatever their classification, and
    [filtra_casos_no_dia] exactly those dated on the target; each stores the
    kept rows in the report and re-runs the aggregation over them. *)
Theorem filtros_mantem_por_data l data alvo todas :
  ha_linhas (linhasRelatorio (relatorio l)) = true →
  leitor_linhasRelatorio l = Some todas →
  arrow_get FORMATOS_FILTRO data = Some alvo →
  (∀ linha, linha ∈ drop 1 todas → is_Some (data_da_linha linha)) →
  let ate := linhas_mantidas (λ t, t <=? alvo)%Z todas in
  let no := linhas_mantidas (λ t, t =? alvo)%Z todas in
  filtra_casos_ate_dia l data = reagrega l ate
  ∧ linhasRelatorio (relatorio (filtra_casos_ate_dia l data).1) = Some ate
  ∧ filtra_casos_no_dia l data = reagrega l no
  ∧ linhasRelatorio (relatorio (filtra_casos_no_dia l data).1) = Some no.
Proof.
  intros Hha Htodas Halvo Hdatas ate no.
  assert (filtra_casos_ate_dia l data = reagrega l ate) as Hate.
  { unfold filtra_casos_ate_dia.
    rewrite (filtra_casos_mantidas _ l data alvo todas) by done.
    f_equal. apply linhas_mantidas_ext. intros t. apply Z.geb_leb. }
  assert (filtra_casos_no_dia l data = reagrega l no) as Hno.
  { unfold filtra_casos_no_dia.
    rewrite (filtra_casos_mantidas _ l data alvo todas) by done.
    f_equal. apply linhas_mantidas_ext. intros t. apply Z.eqb_sym. }
  rewrite Hate, Hno, !reagrega_linhas. done.
Qed.

(** ** Sentinel placeholders *)

(** C4 (as amended). On a row the normaliser accepts (a readable date, at
    least twelve cells, text in cells 3, 9, 10 and 11), the outcome (2) and
    neighbourhood (6) cells are emptied exactly when they equal one of their
    placeholders, while the criterion (3), race/colour (9), education (10)
    and first flag (11) cells are emptied exactly when their text contains
    the placeholder; a cell not emptied keeps its text. *)
Theorem sentinelas_por_coluna linha s0 t s3 s9 s10 s11 :
  12 ≤ length linha →
  linha !! 0 = Some (VStr s0) →
  arrow_get FORMATO_DIA s0 = Some t →
  linha !! 3 = Some (VStr s3) →
  linha !! 9 = Some (VStr s9) →
  linha !! 10 = Some (VStr s10) →
  linha !! 11 = Some (VStr s11) →
  ∃ tratada, trata_dados_linha linha = Ok tratada
    ∧ tratada !! 2
      = anula_por_lista [VStr "Ignorado"; VStr "-"]%string <$> linha !! 2
    ∧ tratada !! 6
      = anula_por_lista [VStr "Não encontrado"; VStr "NULL"]%string
          <$> linha !! 6
    ∧ tratada !! 3 = Some (if str_contem "-" s3 then VNone else VStr s3)
    ∧ tratada !! 9 = Some (if str_contem "Ignorado" s9 then VNone else VStr s9)
    ∧ tratada !! 10
      = Some (if str_contem "Ignorado" s10 then VNone else VStr s10)
    ∧ tratada !! 11 = Some (if str_contem "-" s11 then VNone else VStr s11).
Proof.
  intros Hlen H0 Ht H3 H9 H10 H11.
  destruct linha as [|c0 [|c1 [|c2 [|c3 [|c4 [|c5 [|c6 [|c7 [|c8 [|c9 [|c10
    [|c11 resto]]]]]]]]]]]]; simpl in Hlen; try lia.
  simpl in *. simplify_eq.
  eexists. split.
  - apply trata_dados_linha_Ok. do 14 eexists. eauto.
  - done.
Qed.

(** ** Looking a municipality up *)

(** C9. [busca_casos_municipio] strips the special characters of the name,
    uppercases and trims it; it returns the bucket stored under that key when
    there is one, and otherwise raises a [RelatorioError] whose message
    contains the name exactly as it was given. *)
Theorem busca_casos_municipio_resultado r municipio :
  let chave := str_strip (str_upper (remove_caracteres_especiais municipio)) in
  (∀ m, casosMunicipios r !! chave = Some m →
        busca_casos_municipio r municipio = Ok m)
  ∧ (casosMunicipios r !! chave = None →
     ∃ mensagem,
       busca_casos_municipio r municipio = Raise (RelatorioError mensagem)
       ∧ str_contem municipio mensagem = true).
Proof.
  intros chave. unfold busca_casos_municipio. fold chave. split.
  - by intros m ->.
  - intros ->. eexists. split; [done|]. apply str_contem_append.
Qed.

(** ** What a pass accumulates *)

Lemma percorre_tabula_todos linhas r r' :
  percorre conta_linha r linhas = (r', None) →
  ∃ cs, Forall2 (λ linha c, Caso_init linha = Ok c) linhas cs
        ∧ tabula_todos r cs = Ok r'.
Proof.
  revert r. induction linhas as [|linha linhas IH]; intros r Hp; simpl in Hp.
  - injection Hp as <-. exists []. split; [constructor | done].
  - destruct (conta_linha r linha) as [r1|e] eqn:E; [|done].
    apply conta_linha_Ok in E as (c & Hc & Ht).
    destruct (IH r1 Hp) as (cs & Hcs & Htodos).
    exists (c :: cs). split; [by constructor|]. simpl. by rewrite Ht.
Qed.

Lemma casos_de_cons k c cs :
  casos_de k (c :: cs) = casos_de k [c] ++ casos_de k cs.
Proof.
  unfold casos_de. destruct (classificado k); [|done]. simpl.
  by destruct (bool_decide (municipio c = VStr k)).
Qed.

Lemma casos_de_mesmo k c :
  municipio c = VStr k → classificado k = true → casos_de k [c] = [c].
Proof.
  intros Hm Hc. unfold casos_de. rewrite Hc. simpl.
  by rewrite bool_decide_eq_true_2.
Qed.

Lemma casos_de_outro k c nomeCaso :
  municipio c = VStr nomeCaso →
  nomeCaso ≠ k ∨ classificado nomeCaso = false →
  casos_de k [c] = [].
Proof.
  intros Hm Hou. unfold casos_de. destruct (classificado k) eqn:Hk; [|done].
  simpl. rewrite bool_decide_eq_false_2; [done|].
  rewrite Hm. intros [= ->]. destruct Hou; congruence.
Qed.

Lemma acrescenta_nil k m : acrescenta k [] m = m.
Proof.
  unfold acrescenta, casos_de. destruct m as [n cs cc ob].
  destruct (classificado k); simpl; rewrite app_nil_r; f_equal; lia.
Qed.

Lemma acrescenta_nada k c m : casos_de k [c] = [] → acrescenta k [c] m = m.
Proof.
  intros Hv. unfold acrescenta. rewrite Hv. destruct m as [n cs cc ob].
  simpl. rewrite app_nil_r. f_equal; lia.
Qed.

Lemma acrescenta_cons k c cs m :
  acrescenta k (c :: cs) m = acrescenta k cs (acrescenta k [c] m).
Proof.
  unfold acrescenta. rewrite (casos_de_cons k c cs). simpl.
  rewrite List.filter_app, !length_app, app_assoc. f_equal; lia.
Qed.

(** One tally adds the case to its bucket and to the counters. *)
Lemma tabula_caso_acumula r c r' :
  tabula_caso r c = Ok r' →
  (∀ k, casosMunicipios r' !! k = acrescenta k [c] <$> casosMunicipios r !! k)
  ∧ totalGeral r'
    = mkContagem
        (contagem_casosConfirmados (totalGeral r) + 1)
        (contagem_obitos (totalGeral r)
         + if obito_pelo_covid c then 1 else 0)
  ∧ importadosOuIndefinidos r'
    = mkContagem
        (contagem_casosConfirmados (importadosOuIndefinidos r)
         + if caso_indefinido c then 1 else 0)
        (contagem_obitos (importadosOuIndefinidos r)
         + if caso_indefinido c && obito_pelo_covid c then 1 else 0).
Proof.
  intros Hok.
  destruct (tabula_caso_Ok _ _ _ Hok)
    as (nomeCaso & Hmun & [(Hcl & m & Hm & ->)|(Hcl & ->)]);
    unfold caso_indefinido; rewrite Hmun, Hcl; simpl.
  - split; [|split].
    + intros k. destruct (decide (nomeCaso = k)) as [<-|Hne].
      * rewrite lookup_insert_eq, Hm. simpl. f_equal.
        unfold acrescenta. rewrite (casos_de_mesmo nomeCaso c) by done.
        unfold tabula_municipio, municipio_mais_um_confirmado,
          municipio_anexa_caso, municipio_mais_um_obito.
        destruct (obito_pelo_covid c) eqn:Hob; simpl; rewrite ?Hob; simpl;
          f_equal; lia.
      * rewrite lookup_insert_ne by done.
        destruct (casosMunicipios r !! k) as [mk|]; [|done]. simpl.
        by rewrite acrescenta_nada by (apply (casos_de_outro k c nomeCaso); auto).
    + done.
    + destruct (importadosOuIndefinidos r). simpl. f_equal; lia.
  - split; [|split].
    + intros k. destruct (casosMunicipios r !! k) as [mk|]; [|done]. simpl.
      by rewrite acrescenta_nada by (apply (casos_de_outro k c nomeCaso); auto).
    + done.
    + done.
Qed.

Lemma tabula_todos_acumula cs r r' :
  tabula_todos r cs = Ok r' →
  (∀ k, casosMunicipios r' !! k = acrescenta k cs <$> casosMunicipios r !! k)
  ∧ contagem_casosConfirmados (totalGeral r')
    = (contagem_casosConfirmados (totalGeral r) + Z.of_nat (length cs))%Z
  ∧ contagem_obitos (totalGeral r')
    = (contagem_obitos (totalGeral r)
       + Z.of_nat (length (List.filter obito_pelo_covid cs)))%Z
  ∧ contagem_casosConfirmados (importadosOuIndefinidos r')
    = (contagem_casosConfirmados (importadosOuIndefinidos r)
       + Z.of_nat (length (List.filter caso_indefinido cs)))%Z
  ∧ contagem_obitos (importadosOuIndefinidos r')
    = (contagem_obitos (importadosOuIndefinidos r)
       + Z.of_nat (length (List.filter obito_pelo_covid
                             (List.filter caso_indefinido cs))))%Z.
Proof.
  revert r. induction cs as [|c cs IH]; intros r Hok; simpl in Hok.
  - injection Hok as <-. split; [|simpl; lia].
    intros k. destruct (casosMunicipios r !! k); [|done]. simpl.
    by rewrite acrescenta_nil.
  - apply tenta_Ok in Hok as (r1 & H1 & Hok).
    destruct (tabula_caso_acumula _ _ _ H1) as (Hd1 & Ht1 & Hi1).
    destruct (IH r1 Hok) as (Hd & Htc & Hto & Hic & Hio).
    rewrite Htc, Hto, Hic, Hio, Ht1, Hi1. split.
    + intros k. rewrite Hd, Hd1.
      destruct (casosMunicipios r !! k) as [m|]; [|done].
      change (Some (acrescenta k cs (acrescenta k [c] m))
              = Some (acrescenta k (c :: cs) m)).
      by rewrite (acrescenta_cons k c cs m).
    + cbn [contagem_casosConfirmados contagem_obitos List.filter].
      destruct (caso_indefinido c) eqn:Hi, (obito_pelo_covid c) eqn:Ho;
        cbn [List.filter andb length]; rewrite ?Ho;
        cbn [List.filter andb length]; lia.
Qed.

Lemma casos_lidos_Forall2 linhas cs :
  Forall2 (λ linha c, Caso_init linha = Ok c) linhas cs →
  casos_lidos linhas = cs.
Proof.
  induction 1 as [|linha c linhas cs Hc _ IH]; [done|].
  unfold casos_lidos. rewrite <- IH. unfold casos_lidos.
  cbn [omap list_omap]. by rewrite Hc.
Qed.

Lemma popula_relatorio_Ok r r' r0 :
  popula_relatorio r = (r', Ok r0) ↔
  ∃ linhas, linhasRelatorio r = Some linhas
    ∧ percorre conta_linha (zera_relatorio r) linhas = (r', None)
    ∧ r0 = r'.
Proof.
  unfold popula_relatorio. cbv zeta. rewrite zera_linhas. split.
  - destruct (linhasRelatorio r) as [linhas|]; [|done].
    destruct (percorre conta_linha (zera_relatorio r) linhas) as [r1 [e|]]
      eqn:E; [done|]. intros [= <- <-]. by exists linhas.
  - intros (linhas & -> & -> & ->). done.
Qed.

(** X1. After a pass of [relatorio.py] that returns, every registry name has
    its bucket, and the bucket holds, in the order of the rows, exactly the
    cases whose municipality is that name (none when the name fails the
    registry test); its confirmed count is the length of that list and its
    deaths the number of those cases whose outcome is the death literal. *)
Theorem popula_relatorio_municipios r linhas r' :
  bem_formado r →
  linhasRelatorio r = Some linhas →
  popula_relatorio r = (r', Ok r') →
  length (casos_lidos linhas) = length linhas
  ∧ ∀ k, k ∈ MUNICIPIOS →
      let cs := casos_de k (casos_lidos linhas) in
      casosMunicipios r' !! k
      = Some (mkMunicipio k cs (Z.of_nat (length cs))
                (Z.of_nat (length (List.filter obito_pelo_covid cs)))).
Proof.
  intros Hbf Hl (linhas' & Hl' & Hp & _)%popula_relatorio_Ok.
  assert (linhas' = linhas) as -> by congruence.
  apply percorre_tabula_todos in Hp as (cs & Hcs & Htodos).
  rewrite (casos_lidos_Forall2 _ _ Hcs). split.
  - symmetry. by eapply Forall2_length.
  - intros k Hk cs'. subst cs'.
    destruct (tabula_todos_acumula _ _ _ Htodos) as (Hd & _).
    rewrite Hd, zera_lookup, decide_True by done. done.
Qed.

(** X2. After a pass of [relatorio.py] that returns, the global confirmed
    count is the number of rows read, whatever their classification, the
    global deaths the number of cases whose outcome is the death literal, and
    the imported-or-undefined counters count the cases whose municipality
    fails the registry test. *)
Theorem popula_relatorio_totais r linhas r' :
  bem_formado r →
  linhasRelatorio r = Some linhas →
  popula_relatorio r = (r', Ok r') →
  let cs := casos_lidos linhas in
  contagem_casosConfirmados (totalGeral r') = Z.of_nat (length linhas)
  ∧ contagem_obitos (totalGeral r')
    = Z.of_nat (length (List.filter obito_pelo_covid cs))
  ∧ contagem_casosConfirmados (importadosOuIndefinidos r')
    = Z.of_nat (length (List.filter caso_indefinido cs))
  ∧ contagem_obitos (importadosOuIndefinidos r')
    = Z.of_nat (length (List.filter obito_pelo_covid
                          (List.filter caso_indefinido cs))).
Proof.
  intros Hbf Hl (linhas' & Hl' & Hp & _)%popula_relatorio_Ok cs'. subst cs'.
  assert (linhas' = linhas) as -> by congruence.
  apply percorre_tabula_todos in Hp as (cs & Hcs & Htodos).
  rewrite (casos_lidos_Forall2 _ _ Hcs).
  destruct (tabula_todos_acumula _ _ _ Htodos) as (_ & -> & -> & -> & ->).
  rewrite (Forall2_length _ _ _ Hcs). simpl. lia.
Qed.

(** ** When a pass returns *)

Lemma conta_linha_contavel r linha :
  chaves_do_registro r →
  (∃ r', conta_linha r linha = Ok r') ↔ linha_contavel linha = true.
Proof.
  intros Hch. unfold conta_linha, linha_contavel, tenta.
  destruct (Caso_init linha) as [c|e]; [|split; [by intros [? ?] | done]].
  destruct (municipio c) as [nomeCaso| | | |] eqn:Hmun;
    try (rewrite (tabula_caso_sem_texto r c) by (intros ?; congruence);
         split; [by intros [? ?] | done]).
  destruct (classificado nomeCaso) eqn:Hcl; simpl.
  - rewrite bool_decide_eq_true, <- (Hch nomeCaso). split.
    + intros [r' Hok].
      destruct (casosMunicipios r !! nomeCaso) eqn:E; [eauto|].
      by rewrite (tabula_caso_sem_chave r c nomeCaso) in Hok.
    + intros [m Hm]. eexists.
      by apply (tabula_caso_classificado r c nomeCaso m).
  - split; [done|]. intros _. eexists.
    by apply (tabula_caso_indefinido r c nomeCaso).
Qed.

Lemma percorre_contaveis linhas r :
  chaves_do_registro r →
  (percorre conta_linha r linhas).2 = None ↔
  forallb linha_contavel linhas = true.
Proof.
  revert r. induction linhas as [|linha linhas IH]; intros r Hch; simpl.
  - done.
  - rewrite andb_true_iff, <- (conta_linha_contavel r linha Hch).
    destruct (conta_linha r linha) as [r1|e] eqn:E.
    + rewrite IH.
      * split; [eauto | tauto].
      * apply conta_linha_Ok in E as (c & _ & Ht).
        eauto using tabula_caso_chaves.
    + simpl. split; [done|]. by intros [[? ?] _].
Qed.

(** X3. A pass of [relatorio.py] over loaded rows returns its report exactly
    when every row makes a case record (at least 27 cells, readable strict
    date, text where the normaliser searches) whose municipality is a text
    that either fails the registry test or is itself a registry name. *)
Theorem popula_relatorio_retorna r linhas :
  bem_formado r →
  linhasRelatorio r = Some linhas →
  (∃ r', popula_relatorio r = (r', Ok r'))
  ↔ forallb linha_contavel linhas = true.
Proof.
  intros Hbf Hl.
  rewrite <- (percorre_contaveis linhas (zera_relatorio r))
    by by apply zera_chaves.
  split.
  - intros (r' & (linhas' & Hl' & Hp & _)%popula_relatorio_Ok).
    assert (linhas' = linhas) as -> by congruence. by rewrite Hp.
  - intros Hnone.
    destruct (percorre conta_linha (zera_relatorio r) linhas) as [r' o] eqn:E.
    simpl in Hnone. subst o. exists r'. apply popula_relatorio_Ok. eauto.
Qed.

(** ** Infected municipalities and bucket names *)

Lemma soma_por_limites g (d : gmap string Municipio) :
  (∀ m, 0 ≤ g m ≤ 1)%Z → (0 ≤ soma_por g d ≤ Z.of_nat (size d))%Z.
Proof.
  intros Hg. induction d as [|k m d Hk IH] using map_ind.
  - by rewrite map_size_empty.
  - rewrite soma_por_insert, map_size_insert_None by done.
    specialize (Hg m). lia.
Qed.

Lemma infectado_limites m : (0 ≤ infectado m ≤ 1)%Z.
Proof. unfold infectado. case_bool_decide; lia. Qed.

Lemma zera_infectados r : bem_formado r → infectados_coerentes (zera_relatorio r).
Proof.
  intros Hbf. split.
  - intros k m Hm. rewrite zera_lookup in Hm by done.
    destruct (decide (k ∈ MUNICIPIOS)); by simplify_eq.
  - rewrite soma_por_zero; [done|]. intros k m Hm.
    rewrite zera_lookup in Hm by done.
    destruct (decide (k ∈ MUNICIPIOS)); by simplify_eq.
Qed.

Lemma tabula_caso_infectados r caso r' :
  infectados_coerentes r → tabula_caso r caso = Ok r' →
  infectados_coerentes r'.
Proof.
  intros [Hpos Hn] Hok.
  destruct (tabula_caso_Ok _ _ _ Hok)
    as (nomeCaso & _ & [(_ & m & Hm & ->)|(_ & ->)]); [|by split].
  pose proof (Hpos _ _ Hm) as Hm0. split; simpl.
  - intros k mk Hk. destruct (decide (nomeCaso = k)) as [<-|Hne].
    + rewrite lookup_insert_eq in Hk. injection Hk as <-.
      unfold tabula_municipio. destruct (obito_pelo_covid caso); simpl; lia.
    + rewrite lookup_insert_ne in Hk by done. eauto.
  - rewrite soma_por_tabula, Hn by done. unfold infectado, tabula_municipio.
    destruct (obito_pelo_covid caso); simpl; repeat case_bool_decide; lia.
Qed.

Lemma zera_nomes r : bem_formado r → nomes_coerentes (zera_relatorio r).
Proof.
  intros Hbf k m Hm. rewrite zera_lookup in Hm by done.
  destruct (decide (k ∈ MUNICIPIOS)); by simplify_eq.
Qed.

Lemma tabula_caso_nomes r caso r' :
  nomes_coerentes r → tabula_caso r caso = Ok r' → nomes_coerentes r'.
Proof.
  intros Hnomes Hok.
  destruct (tabula_caso_Ok _ _ _ Hok)
    as (nomeCaso & _ & [(_ & m & Hm & ->)|(_ & ->)]); [|done].
  intros k mk Hk. simpl in Hk. destruct (decide (nomeCaso = k)) as [<-|Hne].
  - rewrite lookup_insert_eq in Hk. injection Hk as <-.
    unfold tabula_municipio. destruct (obito_pelo_covid caso); simpl; eauto.
  - rewrite lookup_insert_ne in Hk by done. eauto.
Qed.

(** A property the reset establishes and every tally keeps holds of the
    report a pass leaves, whether the pass returned or raised. *)
Lemma popula_relatorio_invariante (P : Relatorio → Prop) r :
  P (zera_relatorio r) →
  (∀ r0 caso r1, P r0 → tabula_caso r0 caso = Ok r1 → P r1) →
  P (popula_relatorio r).1.
Proof.
  intros Hzera Hpasso. destruct (linhasRelatorio r) as [linhas|] eqn:Hl.
  - rewrite (popula_relatorio_estado r linhas) by done.
    apply (percorre_invariante P); [|done]. intros r0 linha r1 Hr Hok.
    destruct (conta_linha_Ok _ _ _ Hok) as (caso & _ & Ht). eauto.
  - by rewrite popula_relatorio_sem_linhas.
Qed.

(** X4. After any pass of [relatorio.py], [nMunicipiosInfectados] is the
    number of buckets whose confirmed count is not zero; it lies between 0
    and the number of buckets. *)
Theorem popula_relatorio_infectados r :
  bem_formado r →
  let r' := (popula_relatorio r).1 in
  nMunicipiosInfectados r' = soma_por infectado (casosMunicipios r')
  ∧ (0 ≤ nMunicipiosInfectados r' ≤ Z.of_nat (size (casosMunicipios r')))%Z.
Proof.
  intros Hbf r'.
  assert (infectados_coerentes r') as [_ Hn].
  { apply popula_relatorio_invariante;
      eauto using zera_infectados, tabula_caso_infectados. }
  split; [done|]. rewrite Hn. apply soma_por_limites, infectado_limites.
Qed.

(** X5. After any pass of [relatorio.py], looking a name up succeeds exactly
    when its normalised form is a registry name, whether or not the
    municipality has cases, and the bucket returned carries that name;
    otherwise the lookup raises [RelatorioError]. *)
Theorem busca_casos_municipio_apos_popula r municipio :
  bem_formado r →
  let chave := str_strip (str_upper (remove_caracteres_especiais municipio)) in
  let r' := (popula_relatorio r).1 in
  (chave ∈ MUNICIPIOS →
   ∃ m, busca_casos_municipio r' municipio = Ok m ∧ nome m = chave)
  ∧ (chave ∉ MUNICIPIOS →
     busca_casos_municipio r' municipio
     = Raise (RelatorioError (MENSAGEM_NAO_ENCONTRADO municipio))).
Proof.
  intros Hbf chave r'.
  assert (chaves_do_registro r') as Hch.
  { apply popula_relatorio_invariante;
      eauto using zera_chaves, tabula_caso_chaves. }
  assert (nomes_coerentes r') as Hnomes.
  { apply popula_relatorio_invariante;
      eauto using zera_nomes, tabula_caso_nomes. }
  unfold busca_casos_municipio. fold chave. split.
  - intros Hin. apply (Hch chave) in Hin as [m Hm]. rewrite Hm. eauto.
  - intros Hnin. destruct (casosMunicipios r' !! chave) eqn:E; [|done].
    exfalso. apply Hnin, (Hch chave). rewrite E. eauto.
Qed.

(** ** The reader between filters *)

Lemma filtra_casos_sem_linhas compara l data :
  ha_linhas (linhasRelatorio (relatorio l)) = false →
  filtra_casos compara l data = (l, Raise (RelatorioError MENSAGEM_VAZIO)).
Proof. intros Hha. unfold filtra_casos. by rewrite Hha. Qed.

(** X6. A reader built without a csv refuses to filter: both filters raise
    [RelatorioError] and leave the reader as it was, whatever the date text;
    once [carrega_ultimo_relatorio] has loaded at least one row, the report
    holds those rows and the reader is no longer refused for want of rows. *)
Theorem filtro_antes_de_carregar data baixadas :
  filtra_casos_ate_dia LeitorRelatorio_sem_csv data
  = (LeitorRelatorio_sem_csv, Raise (RelatorioError MENSAGEM_VAZIO))
  ∧ filtra_casos_no_dia LeitorRelatorio_sem_csv data
    = (LeitorRelatorio_sem_csv, Raise (RelatorioError MENSAGEM_VAZIO))
  ∧ let l := (carrega_ultimo_relatorio LeitorRelatorio_sem_csv baixadas).1 in
    linhasRelatorio (relatorio l) = Some baixadas
    ∧ leitor_linhasRelatorio l = Some baixadas
    ∧ ha_linhas (linhasRelatorio (relatorio l))
      = negb (bool_decide (baixadas = [])).
Proof.
  split; [|split].
  - by apply filtra_casos_sem_linhas.
  - by apply filtra_casos_sem_linhas.
  - intros l. subst l. unfold carrega_ultimo_relatorio.
    pose proof (popula_relatorio_csv_linhas
                  (com_linhas (Some baixadas)
                     (com_csv URL_RELATORIO_CSV
                        (relatorio LeitorRelatorio_sem_csv)))) as [_ Hl].
    destruct (popula_relatorio _) as [r saida]. simpl in *. rewrite Hl.
    split; [done|]. split; [done|]. by destruct baixadas.
Qed.


Lemma reagrega_leitor l mantidas :
  leitor_csv (reagrega l mantidas).1 = leitor_csv l
  ∧ leitor_linhasRelatorio (reagrega l mantidas).1 = leitor_linhasRelatorio l
  ∧ csv (relatorio (reagrega l mantidas).1) = csv (relatorio l)
  ∧ (bem_formado (relatorio l) →
     bem_formado (relatorio (reagrega l mantidas).1)).
Proof.
  unfold reagrega.
  pose proof (popula_relatorio_csv_linhas
                (com_linhas (Some mantidas) (relatorio l))) as [Hc _].
  pose proof (popula_relatorio_bem_formado
                (com_linhas (Some mantidas) (relatorio l))) as Hbf.
  destruct (popula_relatorio _) as [r saida]. simpl in *.
  repeat split; auto.
Qed.

Lemma reagrega_apos_reagrega l mantidas outras :
  bem_formado (relatorio l) →
  reagrega (reagrega l mantidas).1 outras = reagrega l outras.
Proof.
  intros Hbf.
  destruct (reagrega_leitor l mantidas) as (Hcsv & Hlin & Hrcsv & Hbf').
  unfold reagrega at 1 3. rewrite Hcsv, Hlin.
  rewrite (popula_relatorio_determinado
             (com_linhas (Some outras) (relatorio (reagrega l mantidas).1))
             (com_linhas (Some outras) (relatorio l))); [done|..].
  - by apply Hbf'.
  - done.
  - exact Hrcsv.
  - done.
Qed.

(** X8. Filters do not compound: every filter starts again from the
    reader's own rows. After a filter that kept at least one row, a second
    filter on the resulting reader gives what it gives on the original
    reader. *)
Theorem filtros_nao_se_acumulam l data alvo todas outra alvo' :
  bem_formado (relatorio l) →
  ha_linhas (linhasRelatorio (relatorio l)) = true →
  leitor_linhasRelatorio l = Some todas →
  arrow_get FORMATOS_FILTRO data = Some alvo →
  arrow_get FORMATOS_FILTRO outra = Some alvo' →
  (∀ linha, linha ∈ drop 1 todas → is_Some (data_da_linha linha)) →
  (linhas_mantidas (λ t, t <=? alvo)%Z todas ≠ [] →
   let l' := (filtra_casos_ate_dia l data).1 in
   filtra_casos_ate_dia l' outra = filtra_casos_ate_dia l outra
   ∧ filtra_casos_no_dia l' outra = filtra_casos_no_dia l outra)
  ∧ (linhas_mantidas (λ t, t =? alvo)%Z todas ≠ [] →
     let l' := (filtra_casos_no_dia l data).1 in
     filtra_casos_ate_dia l' outra = filtra_casos_ate_dia l outra
     ∧ filtra_casos_no_dia l' outra = filtra_casos_no_dia l outra).
Proof.
  intros Hbf Hha Htodas Halvo Halvo' Hdatas.
  destruct (filtros_mantem_por_data_aux l data alvo todas Hha Htodas Halvo Hdatas)
    as [Hate Hno].
  destruct (filtros_mantem_por_data_aux l outra alvo' todas Hha Htodas Halvo'
              Hdatas) as [Hate' Hno'].
  assert (∀ mantidas, mantidas ≠ [] →
            filtra_casos_ate_dia (reagrega l mantidas).1 outra
            = filtra_casos_ate_dia l outra
            ∧ filtra_casos_no_dia (reagrega l mantidas).1 outra
              = filtra_casos_no_dia l outra) as Hgeral.
  { intros mantidas Hne.
    destruct (reagrega_leitor l mantidas) as (_ & Hlin & _ & _).
    destruct (filtros_mantem_por_data_aux (reagrega l mantidas).1 outra alvo'
                todas) as [-> ->]; try done.
    - rewrite reagrega_linhas. by destruct mantidas.
    - by rewrite Hlin.
    - by rewrite Hate', Hno', !reagrega_apos_reagrega. }
  split; intros Hne l'; subst l'.
  - rewrite Hate. by apply Hgeral.
  - rewrite Hno. by apply Hgeral.
Qed.

(** ** The older module *)

Lemma powerbi_conta_linha_Ok r linha r' :
  powerbi_conta_linha r linha = Ok r' →
  ∃ c, powerbi_Caso_init linha = Ok c
       ∧ tabula_todos r (List.filter caso_confirmado [c]) = Ok r'.
Proof.
  unfold powerbi_conta_linha, tenta, caso_confirmado.
  destruct (powerbi_Caso_init linha) as [c|]; [|done].
  intros Hok. exists c. split; [done|]. simpl.
  destruct (py_eq (classificacao c) (VStr CONFIRMADOS)); simpl.
  - rewrite Hok. done.
  - done.
Qed.

Lemma tabula_todos_app cs1 cs2 r :
  tabula_todos r (cs1 ++ cs2)
  = (r1 <~ tabula_todos r cs1;; tabula_todos r1 cs2).
Proof.
  revert r. induction cs1 as [|c cs1 IH]; intros r; simpl; [done|].
  destruct (tabula_caso r c) as [r1|]; simpl; [apply IH | done].
Qed.

Lemma powerbi_percorre_tabula_todos linhas r r' :
  percorre powerbi_conta_linha r linhas = (r', None) →
  ∃ cs, Forall2 (λ linha c, powerbi_Caso_init linha = Ok c) linhas cs
        ∧ tabula_todos r (List.filter caso_confirmado cs) = Ok r'.
Proof.
  revert r. induction linhas as [|linha linhas IH]; intros r Hp; simpl in Hp.
  - injection Hp as <-. exists []. split; [constructor | done].
  - destruct (powerbi_conta_linha r linha) as [r1|e] eqn:E; [|done].
    apply powerbi_conta_linha_Ok in E as (c & Hc & Ht).
    destruct (IH r1 Hp) as (cs & Hcs & Htodos).
    exists (c :: cs). split; [by constructor|].
    change (c :: cs) with ([c] ++ cs).
    by rewrite List.filter_app, tabula_todos_app, Ht.
Qed.

Lemma powerbi_casos_lidos_Forall2 linhas cs :
  Forall2 (λ linha c, powerbi_Caso_init linha = Ok c) linhas cs →
  powerbi_casos_lidos linhas = cs.
Proof.
  induction 1 as [|linha c linhas cs Hc _ IH]; [done|].
  unfold powerbi_casos_lidos. rewrite <- IH. unfold powerbi_casos_lidos.
  cbn [omap list_omap]. by rewrite Hc.
Qed.

(** Whether a list of cases can be tallied depends on the keys of the dict
    only, and tallying keeps the keys and the rows. *)
Lemma tabula_caso_dom r c r' :
  tabula_caso r c = Ok r' →
  dom (casosMunicipios r') = dom (casosMunicipios r)
  ∧ linhasRelatorio r' = linhasRelatorio r.
Proof.
  intros Hok.
  destruct (tabula_caso_Ok _ _ _ Hok)
    as (nomeCaso & _ & [(_ & m & Hm & ->)|(_ & ->)]); [|done].
  simpl. split; [|done]. apply dom_insert_lookup_L. eauto.
Qed.

Lemma tabula_todos_dom cs r r' :
  tabula_todos r cs = Ok r' →
  dom (casosMunicipios r') = dom (casosMunicipios r)
  ∧ linhasRelatorio r' = linhasRelatorio r.
Proof.
  revert r. induction cs as [|c cs IH]; intros r Hok; simpl in Hok.
  - by injection Hok as <-.
  - apply tenta_Ok in Hok as (r1 & (Hd1 & Hl1)%tabula_caso_dom & Hok).
    destruct (IH r1 Hok) as [-> ->]. done.
Qed.

Lemma tabula_todos_mesmas_chaves cs ra rb ra' :
  dom (casosMunicipios ra) = dom (casosMunicipios rb) →
  tabula_todos ra cs = Ok ra' →
  ∃ rb', tabula_todos rb cs = Ok rb'.
Proof.
  revert ra rb. induction cs as [|c cs IH]; intros ra rb Hdom Hok;
    simpl in *; [eauto|].
  apply tenta_Ok in Hok as (ra1 & H1 & Hok).
  assert (∃ rb1, tabula_caso rb c = Ok rb1) as [rb1 Hb1].
  { destruct (tabula_caso_Ok _ _ _ H1)
      as (nomeCaso & Hmun & [(Hcl & m & Hm & _)|(Hcl & _)]).
    - assert (is_Some (casosMunicipios rb !! nomeCaso)) as [mb Hmb].
      { apply elem_of_dom. rewrite <- Hdom. apply elem_of_dom. eauto. }
      eexists. by apply (tabula_caso_classificado rb c nomeCaso mb).
    - eexists. by apply (tabula_caso_indefinido rb c nomeCaso). }
  rewrite Hb1. simpl. apply (IH ra1 rb1); [|done].
  apply tabula_caso_dom in H1 as [-> _].
  apply tabula_caso_dom in Hb1 as [-> _]. done.
Qed.

(** X9. The pass of [parse_relatorio_powerbi.py] does not start from zero:
    when it returns, the global confirmed count has grown by the number of
    rows classified "Confirmados", on top of what the report held; a second
    pass over the same rows returns too and adds that number again. *)
Theorem powerbi_popula_relatorio_acumula r linhas r1 :
  linhasRelatorio r = Some linhas →
  powerbi_popula_relatorio r = (r1, Ok ()) →
  let n := Z.of_nat (length (List.filter caso_confirmado
                               (powerbi_casos_lidos linhas))) in
  contagem_casosConfirmados (totalGeral r1)
  = (contagem_casosConfirmados (totalGeral r) + n)%Z
  ∧ ∃ r2, powerbi_popula_relatorio r1 = (r2, Ok ())
      ∧ contagem_casosConfirmados (totalGeral r2)
        = (contagem_casosConfirmados (totalGeral r) + 2 * n)%Z.
Proof.
  intros Hl Hp n. unfold powerbi_popula_relatorio in Hp. rewrite Hl in Hp.
  destruct (percorre powerbi_conta_linha r linhas) as [r1' [e|]] eqn:E;
    [done|]. injection Hp as ->.
  apply powerbi_percorre_tabula_todos in E as (cs & Hcs & Htodos).
  subst n. rewrite (powerbi_casos_lidos_Forall2 _ _ Hcs).
  destruct (tabula_todos_acumula _ _ _ Htodos) as (_ & Htc & _).
  destruct (tabula_todos_dom _ _ _ Htodos) as [Hdom Hl1].
  split; [done|].
  destruct (tabula_todos_mesmas_chaves _ r r1 r1 (eq_sym Hdom) Htodos)
    as [r2 Htodos2].
  exists r2.
  destruct (tabula_todos_acumula _ _ _ Htodos2) as (_ & Htc2 & _).
  split; [|lia].
  unfold powerbi_popula_relatorio. rewrite Hl1, Hl.
  assert (percorre powerbi_conta_linha r1 linhas = (r2, None)) as ->; [|done].
  clear -Hcs Htodos2. revert r1 Htodos2.
  induction Hcs as [|linha c linhas cs Hc _ IH]; intros r1 Htodos2.
  - simpl in *. by injection Htodos2 as <-.
  - change (c :: cs) with ([c] ++ cs) in Htodos2.
    rewrite List.filter_app, tabula_todos_app in Htodos2.
    apply tenta_Ok in Htodos2 as (ra & Ha & Hrest).
    simpl. unfold powerbi_conta_linha. rewrite Hc. simpl.
    unfold caso_confirmado in Ha. simpl in Ha.
    destruct (py_eq (classificacao c) (VStr CONFIRMADOS)); simpl in Ha.
    + apply tenta_Ok in Ha as (rb & -> & [= <-]). by apply IH.
    + injection Ha as <-. by apply IH.
Qed.

Lemma powerbi_filtra_linhas_Ok dataArrow linhas :
  (∀ linha, linha ∈ linhas →
     is_Some (data_estrita_da_linha linha) ∧ ∃ s, linha !! 1 = Some (VStr s)) →
  powerbi_filtra_linhas dataArrow linhas
  = Ok (List.filter
          (λ linha, match data_estrita_da_linha linha with
                    | Some t => (t <=? dataArrow)%Z
                                && classificacao_contem_confirmados linha
                    | None => false
                    end)
          linhas).
Proof.
  induction linhas as [|linha linhas IH]; intros Hlinhas; [done|].
  destruct (Hlinhas linha) as ([t Ht] & s & Hs); [left|].
  pose proof Ht as Ht'. unfold data_estrita_da_linha in Ht'.
  destruct (linha !! 0) as [[s0| | | |]|] eqn:H0; try done.
  simpl. rewrite Ht. unfold classificacao_contem_confirmados, getitem.
  rewrite H0, Hs. simpl. rewrite Ht'. simpl.
  rewrite IH by (intros ? ?; apply Hlinhas; by right).
  rewrite Z.geb_leb. destruct (t <=? dataArrow)%Z; simpl; [|done].
  by destruct (str_contem CONFIRMADOS s).
Qed.

(** X10. [filtra_data] of [parse_relatorio_powerbi.py], on rows whose
    non-header rows carry a date in the strict format and a text
    classification, returns the non-header rows dated on or before the
    target whose classification contains "Confirmados", in their order. *)
Theorem powerbi_filtra_data_confirmados r data alvo todas :
  linhasRelatorio r = Some todas →
  arrow_get FORMATO_DIA data = Some alvo →
  (∀ linha, linha ∈ drop 1 todas →
     is_Some (data_estrita_da_linha linha) ∧ ∃ s, linha !! 1 = Some (VStr s)) →
  powerbi_filtra_data r data
  = Ok (List.filter
          (λ linha, match data_estrita_da_linha linha with
                    | Some t => (t <=? alvo)%Z
                                && classificacao_contem_confirmados linha
                    | None => false
                    end)
          (drop 1 todas)).
Proof.
  intros Hl Halvo Hlinhas. unfold powerbi_filtra_data.
  rewrite Halvo, Hl. by apply powerbi_filtra_linhas_Ok.
Qed.

(** ** Which rows are read *)

Lemma linha_tratavel_forma linha :
  linha_tratavel linha = true ↔
  ∃ s0 t c1 c2 s3 c4 c5 c6 c7 c8 s9 s10 s11 resto,
    linha = VStr s0 :: c1 :: c2 :: VStr s3 :: c4 :: c5 :: c6 :: c7 :: c8
              :: VStr s9 :: VStr s10 :: VStr s11 :: resto
    ∧ arrow_get FORMATO_DIA s0 = Some t.
Proof.
  unfold linha_tratavel, data_estrita_ok, e_texto. split.
  - intros H. repeat (apply andb_true_iff in H as [H ?]).
    destruct linha as [|c0 [|c1 [|c2 [|c3 [|c4 [|c5 [|c6 [|c7 [|c8 [|c9 [|c10
      [|c11 resto]]]]]]]]]]]]; simpl in *; try done.
    destruct c0 as [s0| | | |], c3 as [s3| | | |], c9 as [s9| | | |],
      c10 as [s10| | | |], c11 as [s11| | | |]; try done.
    apply bool_decide_eq_true in H as [t Ht]. do 14 eexists. eauto.
  - intros (s0 & t & c1 & c2 & s3 & c4 & c5 & c6 & c7 & c8 & s9 & s10 & s11
            & resto & -> & Ht).
    simpl. rewrite Ht. by rewrite bool_decide_eq_true_2 by eauto.
Qed.

Lemma trata_dados_linha_tratavel linha :
  (∃ tratada, trata_dados_linha linha = Ok tratada)
  ↔ linha_tratavel linha = true.
Proof.
  rewrite linha_tratavel_forma. split.
  - intros (tratada & (s0 & t & c1 & c2 & s3 & c4 & c5 & c6 & c7 & c8 & s9
                       & s10 & s11 & resto & -> & Ht & _)%trata_dados_linha_Ok).
    do 14 eexists. eauto.
  - intros (s0 & t & c1 & c2 & s3 & c4 & c5 & c6 & c7 & c8 & s9 & s10 & s11
            & resto & -> & Ht).
    eexists. apply trata_dados_linha_Ok. do 14 eexists. eauto.
Qed.

(** X11. The normaliser raises exactly on the rows whose first cell is not a
    text in the strict day/month/year format or whose cell 3, 9, 10 or 11 is
    missing or is not a text (an empty cell included); when it returns, the
    row keeps its length and its cells 1, 4, 5, 7 and 8, and the first cell
    holds the date that the strict format reads from the text of the first
    cell of the row given. *)
Theorem trata_dados_linha_retorna linha :
  levantou (trata_dados_linha linha) = negb (linha_tratavel linha)
  ∧ ∀ tratada, trata_dados_linha linha = Ok tratada →
      length tratada = length linha
      ∧ (∃ s0 t, linha !! 0 = Some (VStr s0)
                 ∧ arrow_get FORMATO_DIA s0 = Some t
                 ∧ tratada !! 0 = Some (VArrow t))
      ∧ tratada !! 1 = linha !! 1 ∧ tratada !! 4 = linha !! 4
      ∧ tratada !! 5 = linha !! 5 ∧ tratada !! 7 = linha !! 7
      ∧ tratada !! 8 = linha !! 8.
Proof.
  split.
  - destruct (trata_dados_linha linha) as [tratada|e] eqn:E; simpl.
    + symmetry. apply negb_false_iff, trata_dados_linha_tratavel. eauto.
    + symmetry. apply negb_true_iff, not_true_is_false.
      intros [tratada Ht]%trata_dados_linha_tratavel. congruence.
  - intros tratada Hok. split; [by apply trata_dados_linha_length|].
    apply trata_dados_linha_Ok in Hok
      as (s0 & t & c1 & c2 & s3 & c4 & c5 & c6 & c7 & c8 & s9 & s10 & s11
          & resto & -> & Hdata & ->).
    simpl. eauto 10.
Qed.

Lemma para_bool_vocabulario v :
  (para_bool v = VBool true ↔ v = VStr "Sim" ∨ v = VInt 1 ∨ v = VBool true)
  ∧ (para_bool v = VBool false ↔ v = VStr "Não")
  ∧ (para_bool v = VBool true ∨ para_bool v = VBool false
     ∨ para_bool v = VNone).
Proof.
  clear MUNICIPIOS remove_caracteres_especiais str_upper str_strip arrow_get.
  unfold para_bool, stringParaBool. destruct v as [s|n|b| |t]; simpl.
  - destruct (decide ("Sim"%string = s)) as [<-|H1].
    { rewrite bool_decide_eq_true_2 by done. intuition congruence. }
    rewrite (bool_decide_eq_false_2 _ H1).
    destruct (decide ("Não"%string = s)) as [<-|H2].
    { rewrite bool_decide_eq_true_2 by done. intuition congruence. }
    rewrite (bool_decide_eq_false_2 _ H2).
    repeat case_match; intuition congruence.
  - destruct (decide (1%Z = n)) as [<-|H1].
    { rewrite bool_decide_eq_true_2 by done. intuition congruence. }
    rewrite (bool_decide_eq_false_2 _ H1).
    repeat case_match; intuition congruence.
  - destruct b; simpl; intuition congruence.
  - intuition congruence.
  - intuition congruence.
Qed.

(** X12. In a normalised row every cell from index 12 on is the image of the
    raw cell under the boolean vocabulary: [True] for "Sim", 1 and [True],
    [False] for "Não", and [None] for anything else; so each is a boolean or
    [None]. *)
Theorem trata_dados_linha_booleanos linha tratada j v :
  trata_dados_linha linha = Ok tratada →
  12 ≤ j →
  linha !! j = Some v →
  tratada !! j = Some (para_bool v)
  ∧ (para_bool v = VBool true ↔ v = VStr "Sim" ∨ v = VInt 1 ∨ v = VBool true)
  ∧ (para_bool v = VBool false ↔ v = VStr "Não")
  ∧ (para_bool v = VBool true ∨ para_bool v = VBool false
     ∨ para_bool v = VNone).
Proof.
  intros Hok Hj Hv. split; [|apply para_bool_vocabulario].
  apply trata_dados_linha_Ok in Hok
    as (s0 & t & c1 & c2 & s3 & c4 & c5 & c6 & c7 & c8 & s9 & s10 & s11
        & resto & -> & _ & ->).
  do 12 (destruct j as [|j]; [lia|]). simpl in *.
  by rewrite list_lookup_fmap, Hv.
Qed.

Lemma carrega_dados_linha_retorna linha :
  linha_tratavel linha = true →
  27 ≤ length linha →
  ∃ caso, carrega_dados_linha linha = Ok caso
    ∧ linha !! 1 = Some (classificacao caso)
    ∧ linha !! 5 = Some (municipio caso)
    ∧ anula_por_lista [VStr "Ignorado"; VStr "-"]%string <$> linha !! 2
      = Some (evolucao caso).
Proof.
  intros (s0 & t & c1 & c2 & s3 & c4 & c5 & c6 & c7 & c8 & s9 & s10 & s11
          & resto & -> & Ht)%linha_tratavel_forma Hlen.
  destruct resto as [|c12 [|c13 [|c14 [|c15 [|c16 [|c17 [|c18 [|c19 [|c20
    [|c21 [|c22 [|c23 [|c24 [|c25 [|c26 resto]]]]]]]]]]]]]]];
    simpl in Hlen; try lia.
  unfold carrega_dados_linha.
  erewrite (proj2 (trata_dados_linha_Ok _ _)); [|do 14 eexists; eauto].
  eexists. split; [reflexivity|]. done.
Qed.

(** X13. [Caso(linha)] on a row that is not empty returns a record exactly
    when the normaliser accepts the row and the row has at least 27 cells;
    the record then carries the row's classification (cell 1) and
    municipality (cell 5) as they were read, and the outcome (cell 2) with
    its placeholders emptied. *)
Theorem Caso_init_retorna linha :
  linha ≠ [] →
  ((∃ caso, Caso_init linha = Ok caso)
   ↔ linha_tratavel linha = true ∧ 27 ≤ length linha)
  ∧ ∀ caso, Caso_init linha = Ok caso →
      linha !! 1 = Some (classificacao caso)
      ∧ linha !! 5 = Some (municipio caso)
      ∧ anula_por_lista [VStr "Ignorado"; VStr "-"]%string <$> linha !! 2
        = Some (evolucao caso).
Proof.
  intros Hne.
  assert (Caso_init linha = carrega_dados_linha linha) as ->
    by by destruct linha.
  assert (∀ caso, carrega_dados_linha linha = Ok caso →
            linha_tratavel linha = true ∧ 27 ≤ length linha) as Hida.
  { intros caso Hok.
    pose proof (carrega_dados_linha_bem_formada _ _ Hok) as Hbem.
    unfold linha_malformada in Hbem.
    apply orb_false_iff in Hbem as [_ Hlen%Nat.ltb_ge].
    split; [|lia]. apply trata_dados_linha_tratavel.
    unfold carrega_dados_linha in Hok.
    apply tenta_Ok in Hok as (tratada & Ht & _). eauto. }
  split.
  - split; [intros [caso Hok]; eauto|].
    intros [Htrat Hlen].
    destruct (carrega_dados_linha_retorna linha Htrat Hlen) as (caso & ? & _).
    eauto.
  - intros caso Hok. destruct (Hida caso Hok) as [Htrat Hlen].
    destruct (carrega_dados_linha_retorna linha Htrat Hlen)
      as (caso' & Hok' & Hcampos).
    assert (caso' = caso) as -> by congruence. exact Hcampos.
Qed.

(** ** Row 0 *)

Lemma popula_relatorio_contaveis r linhas :
  bem_formado r →
  linhasRelatorio r = Some linhas →
  forallb linha_contavel linhas = true →
  ∃ r', popula_relatorio r = (r', Ok r')
    ∧ contagem_casosConfirmados (totalGeral r') = Z.of_nat (length linhas).
Proof.
  intros Hbf Hl Hcont.
  apply (percorre_contaveis linhas (zera_relatorio r)) in Hcont;
    [|by apply zera_chaves].
  destruct (percorre conta_linha (zera_relatorio r) linhas) as [r' o] eqn:E.
  simpl in Hcont. subst o. exists r'. split.
  - apply popula_relatorio_Ok. eauto.
  - apply percorre_tabula_todos in E as (cs & Hcs & Htodos).
    destruct (tabula_todos_acumula _ _ _ Htodos) as (_ & -> & _).
    by rewrite (Forall2_length _ _ _ Hcs).
Qed.

Lemma forallb_drop {A} (f : A → bool) n (l : list A) :
  forallb f l = true → forallb f (drop n l) = true.
Proof.
  revert n. induction l as [|x l IH]; intros [|n] H; simpl in *; try done.
  apply andb_true_iff in H as [_ H]. by apply IH.
Qed.

(** X14. The pass run when the reader is built tallies every row, row 0
    included, but the filters never read row 0: on a reader built from at
    least two rows, filtering up to a date that no row exceeds re-aggregates
    all the rows but the first, and the global confirmed count drops by
    one. *)
Theorem filtro_ignora_linha_zero caminho todas l data alvo :
  LeitorRelatorio_init caminho todas = Ok l →
  2 ≤ length todas →
  arrow_get FORMATOS_FILTRO data = Some alvo →
  (∀ linha, linha ∈ drop 1 todas →
     ∃ t, data_da_linha linha = Some t ∧ (t ≤ alvo)%Z) →
  contagem_casosConfirmados (totalGeral (relatorio l))
  = Z.of_nat (length todas)
  ∧ ∃ r', filtra_casos_ate_dia l data
          = (mkLeitor r' caminho (Some todas), Ok r')
      ∧ linhasRelatorio r' = Some (drop 1 todas)
      ∧ contagem_casosConfirmados (totalGeral r')
        = (Z.of_nat (length todas) - 1)%Z.
Proof.
  intros Hinit Hlen Halvo Hdatas. unfold LeitorRelatorio_init in Hinit.
  destruct (popula_relatorio (com_linhas (Some todas) (Relatorio_init caminho)))
    as [r [r0|e]] eqn:Hp; [|done]. injection Hinit as <-.
  pose proof (popula_relatorio_bem_formado
                (com_linhas (Some todas) (Relatorio_init caminho))
                (Relatorio_init_bem_formado caminho)) as Hbf.
  pose proof (popula_relatorio_csv_linhas
                (com_linhas (Some todas) (Relatorio_init caminho))) as [_ Hl].
  rewrite Hp in Hbf, Hl. simpl in Hbf, Hl.
  apply popula_relatorio_Ok in Hp as (linhas & [= <-] & Hperc & ->).
  assert (forallb linha_contavel todas = true) as Hcont.
  { apply (percorre_contaveis todas
             (zera_relatorio (com_linhas (Some todas) (Relatorio_init caminho)))).
    - apply zera_chaves, Relatorio_init_bem_formado.
    - by rewrite Hperc. }
  split.
  - apply percorre_tabula_todos in Hperc as (cs & Hcs & Htodos).
    destruct (tabula_todos_acumula _ _ _ Htodos) as (_ & Htc & _).
    simpl. rewrite Htc. by rewrite (Forall2_length _ _ _ Hcs).
  - assert (linhas_mantidas (λ t, t <=? alvo)%Z todas = drop 1 todas) as Hmant.
    { unfold linhas_mantidas.
      rewrite forallb_filter_id; [done|]. apply forallb_forall.
      intros linha Hin%list_elem_of_In.
      destruct (Hdatas linha Hin) as (t & -> & Ht). by apply Z.leb_le. }
    destruct (filtros_mantem_por_data_aux (mkLeitor r caminho (Some todas))
                data alvo todas) as [Hate _]; try done.
    { simpl. rewrite Hl. destruct todas; [simpl in Hlen; lia | done]. }
    { intros linha Hin. destruct (Hdatas linha Hin) as (t & -> & _). eauto. }
    rewrite Hate, Hmant. unfold reagrega. simpl.
    destruct (popula_relatorio_contaveis
                (com_linhas (Some (drop 1 todas)) r) (drop 1 todas))
      as (r' & Hp' & Htot); [done | done | by apply forallb_drop |].
    exists r'. rewrite Hp'. split; [done|]. split.
    + pose proof (popula_relatorio_csv_linhas
                    (com_linhas (Some (drop 1 todas)) r)) as [_ Hl'].
      by rewrite Hp' in Hl'.
    + rewrite Htot, length_drop. lia.
Qed.

End Pipeline.

(** ** The definitions run on sample rows *)

Abbreviation popula_amostra :=
  (popula_relatorio MUNICIPIOS_amostra remove_amostra upper_amostra
     arrow_get_amostra).
Abbreviation conta_amostra :=
  (conta_linha MUNICIPIOS_amostra remove_amostra upper_amostra
     arrow_get_amostra).
Abbreviation relatorio_amostra linhas :=
  (com_linhas (Some linhas) (Relatorio_init MUNICIPIOS_amostra "MICRODADOS.csv")).
Abbreviation leitor_amostra linhas :=
  (mkLeitor (popula_amostra (relatorio_amostra linhas)).1 "MICRODADOS.csv"
     (Some linhas)).

Lemma relatorio_amostra_bem_formado linhas :
  bem_formado MUNICIPIOS_amostra (relatorio_amostra linhas).
Proof.
  exact (Relatorio_init_bem_formado MUNICIPIOS_amostra "MICRODADOS.csv").
Qed.

(** C1, at a row that is not confirmed. The pass of [relatorio.py] over one
    row classified "Suspeito" returns a report that counts it: one confirmed
    case in the global total and in the bucket of its municipality, and one
    infected municipality; the pass of [parse_relatorio_powerbi.py] over the
    same row counts nothing. *)
Theorem popula_relatorio_conta_nao_confirmado :
  ∃ r', popula_amostra
          (relatorio_amostra
             [linha_amostra "10/03/2020" "Suspeito" "-" "VITORIA"])
        = (r', Ok r')
    ∧ contagem_casosConfirmados (totalGeral r') = 1%Z
    ∧ casosConfirmados <$> casosMunicipios r' !! "VITORIA" = Some 1%Z
    ∧ nMunicipiosInfectados r' = 1%Z
    ∧ contagem_casosConfirmados
        (totalGeral
           (powerbi_popula_relatorio MUNICIPIOS_amostra remove_amostra
              upper_amostra arrow_get_amostra
              (relatorio_amostra
                 [linha_amostra "10/03/2020" "Suspeito" "-" "VITORIA"])).1)
      = 0%Z.
Proof. eexists. split; [vm_compute; reflexivity|]. by vm_compute. Qed.

(** C5, at a row whose first flag cell is "Sim". The case record built from
    it keeps the text "Sim" under the first symptom ([febre]; [cefaleia] in
    the older module) while the other flags become booleans. *)
Theorem primeiro_sintoma_fica_texto :
  (∃ caso,
     carrega_dados_linha arrow_get_amostra
       (linha_amostra "10/03/2020" "Confirmados" "-" "VITORIA") = Ok caso
     ∧ sintomas caso
       = Some [("febre", VStr "Sim"); ("dificuldadeRespiratoria", VBool true);
               ("tosse", VBool true); ("coriza", VBool true);
               ("dorGarganta", VBool true); ("diarreia", VBool true);
               ("cefaleia", VBool true)]%string)
  ∧ (∃ caso,
       powerbi_carrega_dados_linha arrow_get_amostra
         (linha_amostra "10/03/2020" "Confirmados" "-" "VITORIA") = Ok caso
       ∧ sintomas caso
         = Some [("cefaleia", VStr "Sim"); ("coriza", VBool true);
                 ("diarreia", VBool true);
                 ("dificuldadeRespiratoria", VBool true);
                 ("dorGarganta", VBool true); ("febre", VBool true);
                 ("tosse", VBool true)]%string).
Proof. split; eexists; (split; [vm_compute; reflexivity | done]). Qed.

Lemma popula_relatorio_conserva_witness :
  let r := relatorio_amostra
             [linha_amostra "10/03/2020" "Confirmados" "Óbito pelo COVID-19" "SERRA";
              linha_amostra "11/03/2020" "Confirmados" "-" "SAO PAULO"] in
  bem_formado MUNICIPIOS_amostra r
  ∧ contagem_casosConfirmados (totalGeral (popula_amostra r).1)
    = (contagem_casosConfirmados (importadosOuIndefinidos (popula_amostra r).1)
       + soma_confirmados (casosMunicipios (popula_amostra r).1))%Z
  ∧ contagem_obitos (totalGeral (popula_amostra r).1)
    = (contagem_obitos (importadosOuIndefinidos (popula_amostra r).1)
       + soma_obitos (casosMunicipios (popula_amostra r).1))%Z.
Proof.
  intros r. split; [apply relatorio_amostra_bem_formado|].
  apply (popula_relatorio_conserva MUNICIPIOS_amostra remove_amostra
           upper_amostra arrow_get_amostra r).
  apply relatorio_amostra_bem_formado.
Defined.

Lemma popula_relatorio_idempotente_witness :
  let r := relatorio_amostra
             [linha_amostra "10/03/2020" "Confirmados" "Óbito pelo COVID-19" "SERRA";
              linha_amostra "11/03/2020" "Confirmados" "-" "SAO PAULO"] in
  bem_formado MUNICIPIOS_amostra r
  ∧ popula_amostra (popula_amostra r).1 = popula_amostra r.
Proof.
  intros r. split; [apply relatorio_amostra_bem_formado|].
  apply (popula_relatorio_idempotente MUNICIPIOS_amostra remove_amostra
           upper_amostra arrow_get_amostra r).
  apply relatorio_amostra_bem_formado.
Defined.

Lemma primeiro_caso_conta_municipio_witness :
  let r := Relatorio_init MUNICIPIOS_amostra "MICRODADOS.csv" in
  ∃ r1,
    tabula_caso MUNICIPIOS_amostra remove_amostra upper_amostra r
      (caso_amostra "Óbito pelo COVID-19" "SERRA") = Ok r1
    ∧ nMunicipiosInfectados r1 = (nMunicipiosInfectados r + 1)%Z
    ∧ ∀ linhas c2,
        municipio c2 = VStr "SERRA" →
        let r2 := (percorre conta_amostra r1 linhas).1 in
        ∃ r3, tabula_caso MUNICIPIOS_amostra remove_amostra upper_amostra r2 c2
              = Ok r3
          ∧ nMunicipiosInfectados r3 = nMunicipiosInfectados r2.
Proof.
  intros r.
  apply (primeiro_caso_conta_municipio MUNICIPIOS_amostra remove_amostra
           upper_amostra arrow_get_amostra r
           (caso_amostra "Óbito pelo COVID-19" "SERRA") "SERRA"
           (Municipio_init "SERRA")); reflexivity.
Defined.

Lemma nome_cru_indexa_dicionario_witness :
  let linha := linha_amostra "10/03/2020" "Confirmados" "-" "Vitoria" in
  popula_amostra (relatorio_amostra [linha])
  = (zera_relatorio MUNICIPIOS_amostra (relatorio_amostra [linha]),
     Raise (KeyError (VStr "Vitoria"))).
Proof.
  intros linha.
  edestruct (nome_cru_indexa_dicionario MUNICIPIOS_amostra remove_amostra
               upper_amostra arrow_get_amostra
               (relatorio_amostra [linha]) [] linha []
               (match Caso_init arrow_get_amostra linha with
                | Ok caso => caso
                | Raise _ => Caso_vazio
                end) "Vitoria")
    as [_ Hraise].
  - apply relatorio_amostra_bem_formado.
  - reflexivity.
  - reflexivity.
  - vm_compute. reflexivity.
  - reflexivity.
  - reflexivity.
  - apply Hraise.
    apply (bool_decide_eq_false_1 ("Vitoria" ∈ MUNICIPIOS_amostra)).
    reflexivity.
Defined.

(** C8, as first stated: "no partial result". A fresh report is given a good
    row, a row of 26 cells and a good row. The pass raises [IndexError] on
    the short row, and the report object, whose counters were all zero before
    the pass, is left with the first row tallied: one confirmed case in the
    total and in SERRA, one municipality infected. It is neither the report
    as it was nor the reset report. *)
Lemma passada_falha_deixa_parcial :
  let boa := linha_amostra "10/03/2020" "Confirmados" "-" "SERRA" in
  let curta := take 26 (linha_amostra "11/03/2020" "Confirmados" "-" "SERRA") in
  let r := relatorio_amostra [boa; curta; boa] in
  contagem_casosConfirmados (totalGeral r) = 0%Z
  ∧ nMunicipiosInfectados r = 0%Z
  ∧ (popula_amostra r).2 = Raise IndexError
  ∧ contagem_casosConfirmados (totalGeral (popula_amostra r).1) = 1%Z
  ∧ nMunicipiosInfectados (popula_amostra r).1 = 1%Z
  ∧ (casosConfirmados <$> casosMunicipios (popula_amostra r).1 !! "SERRA"%string)
    = Some 1%Z
  ∧ (popula_amostra r).1 ≠ r
  ∧ ¬ sem_resultado_parcial_segundo_spec MUNICIPIOS_amostra remove_amostra
        upper_amostra arrow_get_amostra r.
Proof.
  intros boa curta r.
  assert ((popula_amostra r).2 = Raise IndexError) as Hfalha
    by (vm_compute; reflexivity).
  assert (nMunicipiosInfectados (popula_amostra r).1 = 1%Z) as Hn
    by (vm_compute; reflexivity).
  repeat split; try (vm_compute; reflexivity); try assumption.
  - intros Higual. rewrite Higual in Hn. vm_compute in Hn. discriminate Hn.
  - intros Hspec. specialize (Hspec IndexError Hfalha).
    fold (popula_amostra r) in Hspec. rewrite Hspec in Hn.
    vm_compute in Hn. discriminate Hn.
Qed.

Lemma linha_malformada_interrompe_witness :
  let boa := linha_amostra "10/03/2020" "Confirmados" "-" "SERRA" in
  let curta := take 26 (linha_amostra "11/03/2020" "Confirmados" "-" "SERRA") in
  let r := relatorio_amostra [boa; curta; boa] in
  (∃ e, (popula_amostra r).2 = Raise e)
  ∧ ∀ r', percorre conta_amostra (zera_relatorio MUNICIPIOS_amostra r) [boa]
          = (r', None) →
      ∃ e, conta_amostra r' curta = Raise e
           ∧ popula_amostra r = (r', Raise e).
Proof.
  intros boa curta r.
  apply (linha_malformada_interrompe MUNICIPIOS_amostra remove_amostra
           upper_amostra arrow_get_amostra r [boa] curta [boa]); reflexivity.
Defined.

(** C3, as stated, at a row that is not confirmed. With rows dated 09/03
    (confirmed, at index 0) and 10/03 (classified "Suspeito"), filtering up
    to 11/03/2020 keeps the second row, which the stated filter (confirmed
    and dated on or before the target) leaves out. *)
Lemma filtra_casos_ate_dia_mantem_nao_confirmado :
  let todas := [linha_amostra "09/03/2020" "Confirmados" "-" "SERRA";
                linha_amostra "10/03/2020" "Suspeito" "-" "SERRA"] in
  let depois :=
    (filtra_casos_ate_dia MUNICIPIOS_amostra remove_amostra upper_amostra
       arrow_get_amostra (leitor_amostra todas) "11/03/2020").1 in
  linhasRelatorio (relatorio depois)
  = Some [linha_amostra "10/03/2020" "Suspeito" "-" "SERRA"]
  ∧ ate_dia_segundo_spec arrow_get_amostra 20200311 todas = []
  ∧ linhasRelatorio (relatorio depois)
    ≠ Some (ate_dia_segundo_spec arrow_get_amostra 20200311 todas).
Proof.
  intros todas depois.
  assert (linhasRelatorio (relatorio depois)
          = Some [linha_amostra "10/03/2020" "Suspeito" "-" "SERRA"]) as H1
    by (vm_compute; reflexivity).
  assert (ate_dia_segundo_spec arrow_get_amostra 20200311 todas = []) as H2
    by (vm_compute; reflexivity).
  split; [exact H1|]. split; [exact H2|]. rewrite H1, H2. discriminate.
Qed.

Lemma filtros_mantem_por_data_witness :
  let todas := [linha_amostra "09/03/2020" "Confirmados" "-" "SERRA";
                linha_amostra "10/03/2020" "Confirmados" "-" "SERRA";
                linha_amostra "11/03/2020" "Suspeito" "-" "VITORIA";
                linha_amostra "12/03/2020" "Confirmados" "-" "SERRA"] in
  let l := leitor_amostra todas in
  let ate := linhas_mantidas arrow_get_amostra (λ t, t <=? 20200311)%Z todas in
  let no := linhas_mantidas arrow_get_amostra (λ t, t =? 20200311)%Z todas in
  (ate = [linha_amostra "10/03/2020" "Confirmados" "-" "SERRA";
          linha_amostra "11/03/2020" "Suspeito" "-" "VITORIA"]
   ∧ no = [linha_amostra "11/03/2020" "Suspeito" "-" "VITORIA"])
  ∧ filtra_casos_ate_dia MUNICIPIOS_amostra remove_amostra upper_amostra
      arrow_get_amostra l "11/03/2020"
    = reagrega MUNICIPIOS_amostra remove_amostra upper_amostra
        arrow_get_amostra l ate
  ∧ linhasRelatorio
      (relatorio (filtra_casos_ate_dia MUNICIPIOS_amostra remove_amostra
                    upper_amostra arrow_get_amostra l "11/03/2020").1)
    = Some ate
  ∧ filtra_casos_no_dia MUNICIPIOS_amostra remove_amostra upper_amostra
      arrow_get_amostra l "11-03-2020"
    = reagrega MUNICIPIOS_amostra remove_amostra upper_amostra
        arrow_get_amostra l no
  ∧ linhasRelatorio
      (relatorio (filtra_casos_no_dia MUNICIPIOS_amostra remove_amostra
                    upper_amostra arrow_get_amostra l "11-03-2020").1)
    = Some no.
Proof.
  intros todas l ate no.
  assert (∀ linha, linha ∈ drop 1 todas →
          is_Some (data_da_linha arrow_get_amostra linha)) as Hdatas.
  { intros linha Hin. simpl in Hin.
    repeat (apply elem_of_cons in Hin as [->|Hin]);
      [eexists; vm_compute; reflexivity ..|].
    by apply elem_of_nil in Hin. }
  split; [split; reflexivity|].
  pose proof (filtros_mantem_por_data MUNICIPIOS_amostra remove_amostra
                upper_amostra arrow_get_amostra l "11/03/2020" 20200311 todas
                eq_refl eq_refl eq_refl Hdatas) as (Hate & Hate' & _).
  pose proof (filtros_mantem_por_data MUNICIPIOS_amostra remove_amostra
                upper_amostra arrow_get_amostra l "11-03-2020" 20200311 todas
                eq_refl eq_refl eq_refl Hdatas) as (_ & _ & Hno & Hno').
  exact (conj Hate (conj Hate' (conj Hno Hno'))).
Defined.

(** C4, as stated, at a criterion that contains a hyphen. The cell
    "Clinico-Epidemiologico" is none of the placeholders of its column, yet
    normalisation empties it. *)
Lemma criterio_com_hifen_e_anulado :
  let linha := <[3 := VStr "Clinico-Epidemiologico"]>
                 (linha_amostra "10/03/2020" "Confirmados" "-" "SERRA") in
  ∃ tratada,
    trata_dados_linha arrow_get_amostra linha = Ok tratada
    ∧ linha !! 3 = Some (VStr "Clinico-Epidemiologico")
    ∧ anula_por_igualdade ["-"] (VStr "Clinico-Epidemiologico")
      = VStr "Clinico-Epidemiologico"
    ∧ tratada !! 3 = Some VNone
    ∧ ¬ sentinelas_segundo_spec linha tratada.
Proof.
  intros linha. eexists. split; [vm_compute; reflexivity|].
  split; [reflexivity|]. split; [reflexivity|]. split; [reflexivity|].
  intros Hspec.
  specialize (Hspec 3 ["-"%string] (VStr "Clinico-Epidemiologico")).
  discriminate Hspec; [|reflexivity].
  unfold SENTINELAS. apply list_elem_of_In. simpl. tauto.
Qed.

Lemma sentinelas_por_coluna_witness :
  let linha := <[3 := VStr "Clinico-Epidemiologico"]>
                 (<[10 := VStr "Ignorado"]>
                    (linha_amostra "10/03/2020" "Confirmados" "Ignorado" "SERRA")) in
  ∃ tratada, trata_dados_linha arrow_get_amostra linha = Ok tratada
    ∧ tratada !! 2 = Some VNone
    ∧ tratada !! 6 = Some (VStr "CENTRO")
    ∧ tratada !! 3 = Some VNone
    ∧ tratada !! 9 = Some (VStr "Parda")
    ∧ tratada !! 10 = Some VNone
    ∧ tratada !! 11 = Some (VStr "Sim").
Proof.
  intros linha.
  apply (sentinelas_por_coluna arrow_get_amostra linha "10/03/2020" 20200310
           "Clinico-Epidemiologico" "Parda" "Ignorado" "Sim");
    first [reflexivity | vm_compute; lia].
Defined.

(** ** The further properties run on the sample rows *)

Lemma linhas_amostra_datadas :
  ∀ linha, linha ∈ drop 1 linhas_amostra →
    is_Some (data_da_linha arrow_get_amostra linha).
Proof.
  intros linha Hin. simpl in Hin.
  repeat (apply elem_of_cons in Hin as [->|Hin]);
    [eexists; vm_compute; reflexivity ..|].
  by apply elem_of_nil in Hin.
Qed.

Lemma leitor_amostra_bem_formado linhas :
  bem_formado MUNICIPIOS_amostra (relatorio (leitor_amostra linhas)).
Proof.
  apply (popula_relatorio_bem_formado MUNICIPIOS_amostra remove_amostra
           upper_amostra arrow_get_amostra).
  apply relatorio_amostra_bem_formado.
Qed.

Lemma popula_relatorio_municipios_witness :
  let r' := (popula_amostra (relatorio_amostra linhas_amostra)).1 in
  length (casos_lidos arrow_get_amostra linhas_amostra) = 4
  ∧ ∀ k, k ∈ MUNICIPIOS_amostra →
      let cs := casos_de MUNICIPIOS_amostra remove_amostra upper_amostra k
                  (casos_lidos arrow_get_amostra linhas_amostra) in
      casosMunicipios r' !! k
      = Some (mkMunicipio k cs (Z.of_nat (length cs))
                (Z.of_nat (length (List.filter obito_pelo_covid cs)))).
Proof.
  intros r'.
  apply (popula_relatorio_municipios MUNICIPIOS_amostra remove_amostra
           upper_amostra arrow_get_amostra
           (relatorio_amostra linhas_amostra) linhas_amostra r').
  - apply relatorio_amostra_bem_formado.
  - reflexivity.
  - vm_compute. reflexivity.
Defined.

Lemma popula_relatorio_totais_witness :
  let r' := (popula_amostra (relatorio_amostra linhas_amostra)).1 in
  contagem_casosConfirmados (totalGeral r') = 4%Z
  ∧ contagem_obitos (totalGeral r') = 1%Z
  ∧ contagem_casosConfirmados (importadosOuIndefinidos r') = 1%Z
  ∧ contagem_obitos (importadosOuIndefinidos r') = 0%Z.
Proof.
  intros r'.
  apply (popula_relatorio_totais MUNICIPIOS_amostra remove_amostra
           upper_amostra arrow_get_amostra
           (relatorio_amostra linhas_amostra) linhas_amostra r').
  - apply relatorio_amostra_bem_formado.
  - reflexivity.
  - vm_compute. reflexivity.
Defined.

Lemma popula_relatorio_retorna_witness :
  (∃ r', popula_amostra (relatorio_amostra linhas_amostra) = (r', Ok r'))
  ↔ forallb (linha_contavel MUNICIPIOS_amostra remove_amostra upper_amostra
               arrow_get_amostra) linhas_amostra = true.
Proof.
  apply (popula_relatorio_retorna MUNICIPIOS_amostra remove_amostra
           upper_amostra arrow_get_amostra
           (relatorio_amostra linhas_amostra) linhas_amostra).
  - apply relatorio_amostra_bem_formado.
  - reflexivity.
Defined.

Lemma popula_relatorio_infectados_witness :
  let r' := (popula_amostra (relatorio_amostra linhas_amostra)).1 in
  nMunicipiosInfectados r' = soma_por infectado (casosMunicipios r')
  ∧ (0 ≤ nMunicipiosInfectados r' ≤ Z.of_nat (size (casosMunicipios r')))%Z.
Proof.
  apply (popula_relatorio_infectados MUNICIPIOS_amostra remove_amostra
           upper_amostra arrow_get_amostra
           (relatorio_amostra linhas_amostra)).
  apply relatorio_amostra_bem_formado.
Defined.

Lemma busca_casos_municipio_apos_popula_witness :
  let r' := (popula_amostra (relatorio_amostra linhas_amostra)).1 in
  ("VILA VELHA" ∈ MUNICIPIOS_amostra →
   ∃ m, busca_casos_municipio remove_amostra upper_amostra strip_amostra r'
          " Vila Velha! " = Ok m
        ∧ nome m = "VILA VELHA")
  ∧ ("VILA VELHA" ∉ MUNICIPIOS_amostra →
     busca_casos_municipio remove_amostra upper_amostra strip_amostra r'
       " Vila Velha! "
     = Raise (RelatorioError (MENSAGEM_NAO_ENCONTRADO " Vila Velha! "))).
Proof.
  apply (busca_casos_municipio_apos_popula MUNICIPIOS_amostra remove_amostra
           upper_amostra strip_amostra arrow_get_amostra
           (relatorio_amostra linhas_amostra) " Vila Velha! ").
  apply relatorio_amostra_bem_formado.
Defined.


Lemma filtros_nao_se_acumulam_witness :
  let l := leitor_amostra linhas_amostra in
  let no := filtra_casos_no_dia MUNICIPIOS_amostra remove_amostra
              upper_amostra arrow_get_amostra in
  let ate := filtra_casos_ate_dia MUNICIPIOS_amostra remove_amostra
               upper_amostra arrow_get_amostra in
  ate (ate l "10/03/2020").1 "12/03/2020" = ate l "12/03/2020"
  ∧ no (ate l "10/03/2020").1 "12/03/2020" = no l "12/03/2020".
Proof.
  intros l no ate.
  edestruct (filtros_nao_se_acumulam MUNICIPIOS_amostra remove_amostra
               upper_amostra arrow_get_amostra l "10/03/2020"
               20200310 linhas_amostra "12/03/2020" 20200312) as [Hate _].
  - apply leitor_amostra_bem_formado.
  - vm_compute. reflexivity.
  - reflexivity.
  - reflexivity.
  - reflexivity.
  - exact linhas_amostra_datadas.
  - apply Hate. intros Hvazio. vm_compute in Hvazio. discriminate Hvazio.
Defined.

Lemma powerbi_popula_relatorio_acumula_witness :
  let r := relatorio_amostra linhas_amostra in
  let r1 := (powerbi_popula_relatorio MUNICIPIOS_amostra remove_amostra
               upper_amostra arrow_get_amostra r).1 in
  contagem_casosConfirmados (totalGeral r1) = 3%Z
  ∧ ∃ r2, powerbi_popula_relatorio MUNICIPIOS_amostra remove_amostra
            upper_amostra arrow_get_amostra r1 = (r2, Ok ())
      ∧ contagem_casosConfirmados (totalGeral r2) = 6%Z.
Proof.
  intros r r1.
  apply (powerbi_popula_relatorio_acumula MUNICIPIOS_amostra remove_amostra
           upper_amostra arrow_get_amostra r linhas_amostra r1).
  - reflexivity.
  - vm_compute. reflexivity.
Defined.

Lemma powerbi_filtra_data_confirmados_witness :
  powerbi_filtra_data arrow_get_amostra (relatorio_amostra linhas_amostra)
    "11/03/2020"
  = Ok [linha_amostra "10/03/2020" "Confirmados" "-" "SAO PAULO"].
Proof.
  apply (powerbi_filtra_data_confirmados arrow_get_amostra
           (relatorio_amostra linhas_amostra) "11/03/2020" 20200311
           linhas_amostra eq_refl eq_refl).
  intros linha Hin. simpl in Hin.
  repeat (apply elem_of_cons in Hin as [->|Hin]);
    [split; [eexists; vm_compute; reflexivity | eexists; reflexivity] ..|].
  by apply elem_of_nil in Hin.
Defined.

Lemma trata_dados_linha_booleanos_witness :
  let linha := <[13 := VStr "Não"]>
                 (linha_amostra "10/03/2020" "Confirmados" "-" "SERRA") in
  let tratada := match trata_dados_linha arrow_get_amostra linha with
                 | Ok tratada => tratada
                 | Raise _ => []
                 end in
  tratada !! 13 = Some (para_bool (VStr "Não"))
  ∧ (para_bool (VStr "Não") = VBool true
     ↔ VStr "Não" = VStr "Sim" ∨ VStr "Não" = VInt 1
       ∨ VStr "Não" = VBool true)
  ∧ (para_bool (VStr "Não") = VBool false ↔ VStr "Não" = VStr "Não")
  ∧ (para_bool (VStr "Não") = VBool true
     ∨ para_bool (VStr "Não") = VBool false
     ∨ para_bool (VStr "Não") = VNone).
Proof.
  intros linha tratada.
  apply (trata_dados_linha_booleanos arrow_get_amostra linha tratada 13
           (VStr "Não")).
  - vm_compute. reflexivity.
  - lia.
  - reflexivity.
Defined.

Lemma Caso_init_retorna_witness :
  let linha := linha_amostra "10/03/2020" "Confirmados" "Ignorado" "SERRA" in
  linha ≠ []
  ∧ ((∃ caso, Caso_init arrow_get_amostra linha = Ok caso)
     ↔ linha_tratavel arrow_get_amostra linha = true ∧ 27 ≤ length linha)
  ∧ ∀ caso, Caso_init arrow_get_amostra linha = Ok caso →
      linha !! 1 = Some (classificacao caso)
      ∧ linha !! 5 = Some (municipio caso)
      ∧ anula_por_lista [VStr "Ignorado"; VStr "-"]%string <$> linha !! 2
        = Some (evolucao caso).
Proof.
  intros linha. split; [discriminate|].
  apply (Caso_init_retorna arrow_get_amostra linha). discriminate.
Defined.

Lemma filtro_ignora_linha_zero_witness :
  ∃ l, LeitorRelatorio_init MUNICIPIOS_amostra remove_amostra upper_amostra
         arrow_get_amostra "MICRODADOS.csv" linhas_amostra = Ok l
    ∧ contagem_casosConfirmados (totalGeral (relatorio l)) = 4%Z
    ∧ ∃ r', filtra_casos_ate_dia MUNICIPIOS_amostra remove_amostra
              upper_amostra arrow_get_amostra l "31/12/2020"
            = (mkLeitor r' "MICRODADOS.csv" (Some linhas_amostra), Ok r')
        ∧ linhasRelatorio r' = Some (drop 1 linhas_amostra)
        ∧ contagem_casosConfirmados (totalGeral r') = 3%Z.
Proof.
  eexists. split; [vm_compute; reflexivity|].
  eapply (filtro_ignora_linha_zero MUNICIPIOS_amostra remove_amostra
            upper_amostra arrow_get_amostra "MICRODADOS.csv" linhas_amostra _
            "31/12/2020" 20201231).
  - vm_compute. reflexivity.
  - simpl. lia.
  - reflexivity.
  - intros linha Hin. simpl in Hin.
    repeat (apply elem_of_cons in Hin as [->|Hin]);
      [eexists; split; [vm_compute; reflexivity | lia] ..|].
    by apply elem_of_nil in Hin.
Defined.
